(** * llmtune.cli.toolkit: the staged experiment pipeline and the sweep driver

    A shallow embedding of [src/llmtune/cli/toolkit.py].  The two functions of
    interest are [run_one_experiment] (dataset, fine-tune, inference; each
    stage skipped when its artifact is already on disk) and the [run] command
    (expand the configuration, validate, resolve paths, reload the persisted
    configuration, run the pipeline).

    The module only orchestrates: every piece of real work is a call into
    another module of the package (DatasetGenerator, LoRAFinetune,
    LoRAInference, DirectoryHelper, Config, generate_permutations) or into a
    library (yaml, pathlib).  Those callees are the fields of the record
    [Collab]; the orchestration code is written once, over any [Collab]. *)

From stdpp Require Import base option list strings gmap fin_maps.
From Stdlib Require Import ZArith Ascii.

Set Default Proof Using "Type".

(** ** Python values as produced by [yaml.safe_load] *)

(** A mapping is kept as an association list in insertion order; the key
    looked up is the first one that matches.  Keys are strings. *)
#[warnings="-register-all"] Inductive PyVal : Type :=
| PNone
| PBool (b : bool)
| PInt (n : Z)
| PStr (s : string)
| PList (xs : list PyVal)
| PDict (kvs : list (string * PyVal)).

(** Python truthiness, as used by the conditional expression in [run]. *)
Definition truthy (v : PyVal) : bool :=
  match v with
  | PNone => false
  | PBool b => b
  | PInt n => negb (n =? 0)%Z
  | PStr s => negb (String.eqb s "")
  | PList xs => match xs with [] => false | _ => true end
  | PDict kvs => match kvs with [] => false | _ => true end
  end.

Fixpoint dict_lookup (k : string) (kvs : list (string * PyVal)) : option PyVal :=
  match kvs with
  | [] => None
  | (k', v) :: rest => if String.eqb k k' then Some v else dict_lookup k rest
  end.

(** ** The file system seen through [pathlib] *)

(** A path is its sequence of components; [p / name] appends one. *)
Definition Path : Type := list string.

Inductive Node : Type :=
| File (content : string)
| Dir.

Definition parent (p : Path) : option Path :=
  match p with
  | [] => None
  | _ => Some (removelast p)
  end.

(** [Path.exists()] *)
Definition Path_exists (fs : gmap (list string) Node) (p : Path) : bool :=
  bool_decide (is_Some (fs !! p)).

(** The entries directly below [p]. *)
Definition children (fs : gmap (list string) Node) (p : Path) : list Path :=
  filter (λ q, parent q = Some p) (fst <$> map_to_list fs).

(** ** Exceptions and results *)

Section Effects.
Context {ValidationFailure : Type}.

Inductive Exn : Type :=
| ValidationError (e : ValidationFailure)
| IndexError
| AttributeError
| TypeError
| FileNotFoundError
| NotADirectoryError
| IsADirectoryError
| YAMLError
| RuntimeError (msg : string).

Inductive result (A : Type) : Type :=
| Ok (a : A)
| Raise (e : Exn).
End Effects.

Arguments Exn : clear implicits.
Arguments result : clear implicits.
Arguments Ok {ValidationFailure A} a.
Arguments Raise {ValidationFailure A} e.

(** ** The orchestration code, over its collaborators *)

Section Toolkit.
Context {Config DataKwargs Example Columns ValidationFailure Heap : Type}.
Context {DirectoryHelperT DatasetGeneratorT LoRAFinetuneT LoRAInferenceT : Type}.

Local Abbreviation Exn := (Exn ValidationFailure).
Local Abbreviation result := (result ValidationFailure).

(** The variable [config] of [run] holds the raw mapping until
    [Config] accepts it, and the typed object afterwards. *)
Inductive PyObj : Type :=
| Raw (v : PyVal)
| Typed (c : Config).

(** [dir_helper.save_paths] *)
Record SavePaths : Type := {
  dataset : Path;
  weights : Path;
  results : Path;
  results_file : Path;
  config_file : Path
}.

(** The world: the file system, and the private state of the collaborator
    objects (a [DatasetGenerator] remembers the dataset it built, a
    [LoRAFinetune] the model it trained). *)
Record St : Type := {
  fs : gmap (list string) Node;
  heap : Heap
}.

(** A call into a collaborator: it may change the world and may raise. *)
Definition Eff (A : Type) : Type := St → result A * St.

(** [RichUI] static methods called by the pipeline. *)
Inductive UiEvent : Type :=
| before_dataset_creation
| during_dataset_creation (message spinner : string)
| dataset_found (dataset_path : Path)
| dataset_display_one_example (train_row test_row : Example)
| after_dataset_creation (dataset_path : Path) (train test : list Example)
| before_finetune
| during_finetune
| after_finetune
| finetune_found (weights_path : Path)
| before_inference
| after_inference (results_path : Path)
| results_found (results_path : Path).

(** Calls into the other modules, with their arguments. *)
Inductive CallEvent : Type :=
| CDirectoryHelper (config_path : Path) (config : PyObj)
| CDatasetGenerator (kwargs : DataKwargs)
| Cget_dataset
| Csave_dataset (dataset_path : Path)
| Cload_dataset_from_pickle (dataset_path : Path)
| CLoRAFinetune (config : Config) (dir_helper : DirectoryHelperT)
| Cfinetune (train : list Example)
| Csave_model
| CLoRAInference (test : list Example) (test_columns : Columns)
    (config : Config) (dir_helper : DirectoryHelperT)
| Cinfer_all
| Cgenerate_permutations (config : PyVal)
| Crun_one_experiment (config : Config) (config_path : Path).

Inductive Event : Type :=
| EvUI (u : UiEvent)
| EvCall (c : CallEvent)
| EvPrint (line : string).

(** The orchestration monad: world in, result and world out, plus the
    calls made on the way.  The world is kept when an exception is raised:
    what a stage wrote before failing stays on disk. *)
Definition M (A : Type) : Type := St → result A * St * list Event.

#[export] Instance M_ret : MRet M := λ A a s, (Ok a, s, []).

#[export] Instance M_bind : MBind M := λ A B f m s,
  match m s with
  | (Ok a, s', t) => let '(r, s'', t') := f a s' in (r, s'', t ++ t')
  | (Raise e, s', t) => (Raise e, s', t)
  end.

Definition raise {A} (e : Exn) : M A := λ s, (Raise e, s, []).

Definition log (ev : Event) : M unit := λ s, (Ok tt, s, [ev]).

(** A pure computation that may raise. *)
Definition lift {A} (r : result A) : M A := λ s, (r, s, []).

(** A collaborator call, recorded in the trace before it runs. *)
Definition invoke {A} (c : CallEvent) (m : Eff A) : M A := λ s,
  let '(r, s') := m s in (r, s', [EvCall c]).

(** [try: body  except ValidationError as e: handler e] *)
Definition try_except_ValidationError {A} (body : M A)
    (handler : ValidationFailure → M A) : M A := λ s,
  match body s with
  | (Raise (ValidationError e), s', t) =>
      let '(r, s'', t') := handler e s' in (r, s'', t ++ t')
  | other => other
  end.

(** Modelled from the spec: RichUI is not under src/; status reporting is
    "purely observational; no effect on control flow", so a call only leaves
    its mark in the trace. *)
Definition RichUI (u : UiEvent) : M unit := log (EvUI u).

(** [print(line)] *)
Definition print (line : string) : M unit := log (EvPrint line).

(** *** pathlib *)

Definition exists_ (p : Path) : M bool := λ s, (Ok (Path_exists (fs s) p), s, []).

(** [p.iterdir()], consumed at once. *)
Definition iterdir (p : Path) : M (list Path) := λ s,
  match fs s !! p with
  | Some Dir => (Ok (children (fs s) p), s, [])
  | Some (File _) => (Raise NotADirectoryError, s, [])
  | None => (Raise FileNotFoundError, s, [])
  end.

(** [any(paths)]: a [Path] object is always truthy. *)
Definition any_path (entries : list Path) : bool :=
  match entries with [] => false | _ => true end.

(** [with p.open("r") as file: ... file ...] hands over the text. *)
Definition open_r (p : Path) : M string := λ s,
  match fs s !! p with
  | Some (File content) => (Ok content, s, [])
  | Some Dir => (Raise IsADirectoryError, s, [])
  | None => (Raise FileNotFoundError, s, [])
  end.

(** *** Python built-ins *)

(** [xs[0]] *)
Definition getitem0 {A} (xs : list A) : M A :=
  match xs with
  | [] => raise IndexError
  | x :: _ => mret x
  end.

(** [d.get(key, default)]; only a mapping has the method. *)
Definition py_get (d : PyVal) (key : string) (dflt : PyVal) : M PyVal :=
  match d with
  | PDict kvs => mret (default dflt (dict_lookup key kvs))
  | _ => raise AttributeError
  end.

(** *** The collaborators

    Everything [toolkit.py] imports and calls.  A constructor or method is
    an [Eff]; what the code reads as an attribute is a plain function. *)
Record Collab : Type := {
  (** pydantic: [Config] applied to the keyword arguments of a mapping *)
  Config_validate : list (string * PyVal) → Config + ValidationFailure;
  (** [e.json()] of a [ValidationError] *)
  json : ValidationFailure → string;
  (** [config.data.model_dump()] *)
  data_model_dump : Config → DataKwargs;
  (** [yaml.safe_load] on the text of a file *)
  yaml_safe_load : string → result PyVal;
  (** [generate_permutations(config, Config)] *)
  generate_permutations : PyVal → Eff (list PyVal);
  (** [DirectoryHelper(config_path, config)] and its [save_paths] *)
  DirectoryHelper : Path → PyObj → Eff DirectoryHelperT;
  save_paths : DirectoryHelperT → SavePaths;
  (** [DatasetGenerator(kwargs)] and what the pipeline uses of it *)
  DatasetGenerator : DataKwargs → Eff DatasetGeneratorT;
  train_columns : DatasetGeneratorT → Columns;
  test_columns : DatasetGeneratorT → Columns;
  get_dataset : DatasetGeneratorT → Eff (list Example * list Example);
  save_dataset : DatasetGeneratorT → Path → Eff unit;
  load_dataset_from_pickle :
    DatasetGeneratorT → Path → Eff (list Example * list Example);
  (** [LoRAFinetune(config, dir_helper)] *)
  LoRAFinetune : Config → DirectoryHelperT → Eff LoRAFinetuneT;
  finetune : LoRAFinetuneT → list Example → Eff unit;
  save_model : LoRAFinetuneT → Eff unit;
  (** [LoRAInference(test, test_columns, config, dir_helper)] *)
  LoRAInference :
    list Example → Columns → Config → DirectoryHelperT → Eff LoRAInferenceT;
  infer_all : LoRAInferenceT → Eff unit
}.

Variable K : Collab.

(** [Config] applied to [config] unpacked as keyword arguments: only a
    mapping can be unpacked; then pydantic accepts or rejects it. *)
Definition Config_new (config : PyVal) : M Config :=
  match config with
  | PDict kwargs =>
      match Config_validate K kwargs with
      | inl c => mret c
      | inr e => raise (ValidationError e)
      end
  | _ => raise TypeError
  end.

(** *** [run_one_experiment], lines 37-94

    The body is cut at its three comment banners. *)

(** "Loading Data", lines 41-58.  Hands the test columns and both splits
    to the rest of the function. *)
Definition stage_dataset (config : Config) (dir_helper : DirectoryHelperT)
    : M (Columns * list Example * list Example) :=
  RichUI before_dataset_creation;;
  RichUI (during_dataset_creation "Injecting Values into Prompt" "monkey");;
  dataset_generator ←
    invoke (CDatasetGenerator (data_model_dump K config))
           (DatasetGenerator K (data_model_dump K config));
  let _ := train_columns K dataset_generator in
  let test_columns := test_columns K dataset_generator in
  let dataset_path := dataset (save_paths K dir_helper) in
  found ← exists_ dataset_path;
  '(train, test) ←
    (if negb found then
       split ← invoke Cget_dataset (get_dataset K dataset_generator);
       invoke (Csave_dataset dataset_path)
              (save_dataset K dataset_generator dataset_path);;
       mret split
     else
       RichUI (dataset_found dataset_path);;
       invoke (Cload_dataset_from_pickle dataset_path)
              (load_dataset_from_pickle K dataset_generator dataset_path));
  train_row ← getitem0 train;
  test_row ← getitem0 test;
  RichUI (dataset_display_one_example train_row test_row);;
  RichUI (after_dataset_creation dataset_path train test);;
  mret (test_columns, train, test).

(** The test of line 66:
    [not weights_path.exists() or not any(weights_path.iterdir())]. *)
Definition weights_missing (weights_path : Path) : M bool :=
  found ← exists_ weights_path;
  if negb found then mret true
  else entries ← iterdir weights_path; mret (negb (any_path entries)).

(** "Loading Model", lines 61-73. *)
Definition stage_finetune (config : Config) (dir_helper : DirectoryHelperT)
    (train : list Example) : M unit :=
  RichUI before_finetune;;
  let weights_path := weights (save_paths K dir_helper) in
  todo ← weights_missing weights_path;
  if (todo : bool) then
    finetuner ← invoke (CLoRAFinetune config dir_helper)
                       (LoRAFinetune K config dir_helper);
    RichUI during_finetune;;
    invoke (Cfinetune train) (finetune K finetuner train);;
    invoke Csave_model (save_model K finetuner);;
    RichUI after_finetune
  else
    RichUI (finetune_found weights_path).

(** "Inference", lines 76-84. *)
Definition stage_inference (config : Config) (dir_helper : DirectoryHelperT)
    (test : list Example) (test_columns : Columns) : M unit :=
  RichUI before_inference;;
  let results_path := results (save_paths K dir_helper) in
  let results_file_path := results_file (save_paths K dir_helper) in
  found ← exists_ results_file_path;
  if negb found then
    inference_runner ←
      invoke (CLoRAInference test test_columns config dir_helper)
             (LoRAInference K test test_columns config dir_helper);
    invoke Cinfer_all (infer_all K inference_runner);;
    RichUI (after_inference results_path)
  else
    RichUI (results_found results_path).

Definition run_one_experiment (config : Config) (config_path : Path) : M unit :=
  dir_helper ←
    invoke (CDirectoryHelper config_path (Typed config))
           (DirectoryHelper K config_path (Typed config));
  '(test_columns, train, test) ← stage_dataset config dir_helper;
  stage_finetune config dir_helper train;;
  stage_inference config dir_helper test test_columns.

(** *** The [run] command, lines 97-120 *)

(** Lines 103-105: the sweep if [ablation.use_ablate] is set, else the
    configuration alone. *)
Definition expand_configs (config : PyVal) : M (list PyVal) :=
  ablation ← py_get config "ablation" (PDict []);
  use_ablate ← py_get ablation "use_ablate" (PBool false);
  if truthy use_ablate then
    invoke (Cgenerate_permutations config) (generate_permutations K config)
  else
    mret [config].

(** Lines 108-111: the guarded validation.  The variable [config] is
    rebound only when [Config] returns; the handler prints and leaves it
    as it was. *)
Definition validate_first (config : PyVal) : M PyObj :=
  try_except_ValidationError
    (c ← Config_new config; mret (Typed c))
    (λ e, print (json K e);; mret (Raw config)).

(** The body of the [for] loop, lines 107-120. *)
Definition run_config (config_path : Path) (config : PyVal) : M unit :=
  config ← validate_first config;
  dir_helper ←
    invoke (CDirectoryHelper config_path config)
           (DirectoryHelper K config_path config);
  text ← open_r (config_file (save_paths K dir_helper));
  config ← lift (yaml_safe_load K text);
  config ← Config_new config;
  log (EvCall (Crun_one_experiment config config_path));;
  run_one_experiment config config_path.

(** [for config in configs: body] *)
Fixpoint for_each (configs : list PyVal) (body : PyVal → M unit) : M unit :=
  match configs with
  | [] => mret tt
  | config :: rest => body config;; for_each rest body
  end.

Definition run (config_path : Path) : M unit :=
  text ← open_r config_path;
  config ← lift (yaml_safe_load K text);
  configs ← expand_configs config;
  for_each configs (run_config config_path).

(** [cli()] dispatching to [run]: the interpreter exits with status 0 when
    the command returns and with status 1 when an exception escapes it. *)
Definition cli_run (config_path : Path) (s : St) : Z :=
  match run config_path s with
  | (Ok _, _, _) => 0
  | (Raise _, _, _) => 1
  end.
End Toolkit.

(** ** A small set of collaborators

    Modelled from the spec: the collaborators are not under src/.  This is
    one concrete [Collab] that meets their contracts, used to run the
    orchestration code on explicit file systems.  Configurations are small
    [key: value] files; the experiment directory is named after the
    configuration's [name]. *)

Module Demo.
Record Config : Type := { name : string; data : string }.

(** A validation failure: (field path, reason) pairs. *)
Definition ValidationFailure : Type := list (string * string).

Definition Heap : Type := option (list string * list string).

Abbreviation St := (@St Heap).
Abbreviation Eff := (@Eff ValidationFailure Heap).
Abbreviation PyObj := (@PyObj Config).

(** Cut [s] at the first [c]: what is before, and what is after if any. *)
Fixpoint cut (c : ascii) (s : string) : string * option string :=
  match s with
  | EmptyString => (EmptyString, None)
  | String a rest =>
      if Ascii.eqb a c then (EmptyString, Some rest)
      else let '(before, after) := cut c rest in (String a before, after)
  end.

Fixpoint split_on (c : ascii) (fuel : nat) (s : string) : list string :=
  match fuel with
  | O => []
  | S fuel =>
      match cut c s with
      | (piece, None) => if String.eqb piece "" then [] else [piece]
      | (piece, Some rest) => piece :: split_on c fuel rest
      end
  end.

Definition split (c : ascii) (s : string) : list string :=
  split_on c (S (String.length s)) s.

Definition join (sep : string) (xs : list string) : string :=
  String.concat sep xs.

Definition strip_space (s : string) : string :=
  match s with
  | String " " rest => rest
  | _ => s
  end.

(** The loader for small files: one [key: value] per line; a key with
    nothing after the colon holds [None]. *)
Definition scalar (value : string) : PyVal :=
  if String.eqb value "" then PNone
  else if String.eqb value "true" then PBool true
  else if String.eqb value "false" then PBool false
  else PStr value.

Definition parse_entry (line : string) : option (string * string) :=
  match cut ":" line with
  | (key, Some value) => Some (key, strip_space value)
  | (_, None) => None
  end.

(** After the colon: a scalar, or a one-entry flow mapping [{k: v}]. *)
Definition parse_line (line : string) : option (string * PyVal) :=
  '(key, value) ← parse_entry line;
  match value with
  | String "{" inner =>
      '(k, v) ← parse_entry (fst (cut "}" inner));
      Some (key, PDict [(k, scalar v)])
  | _ => Some (key, scalar value)
  end.

Definition safe_load (text : string) : result ValidationFailure PyVal :=
  match mapM parse_line (split "010" text) with
  | Some kvs => Ok (PDict kvs)
  | None => Raise YAMLError
  end.

(** The schema: [data] is a required string, [name] a string that
    defaults to "run". *)
Definition validate (kwargs : list (string * PyVal)) : Config + ValidationFailure :=
  match dict_lookup "data" kwargs with
  | Some (PStr d) =>
      match dict_lookup "name" kwargs with
      | Some (PStr n) => inl {| name := n; data := d |}
      | None => inl {| name := "run"; data := d |}
      | Some _ => inr [("name", "Input should be a valid string")]
      end
  | Some _ => inr [("data", "Input should be a valid string")]
  | None => inr [("data", "Field required")]
  end.

Definition failure_json (e : ValidationFailure) : string :=
  join ";" (map (λ '(loc, msg), loc +:+ ": " +:+ msg) e).

Definition dump_entry (kv : string * PyVal) : string :=
  match kv with
  | (k, PStr v) => k +:+ ": " +:+ v
  | (k, _) => k +:+ ":"
  end.

Definition dump (kvs : list (string * PyVal)) : string :=
  join (String "010" "") (map dump_entry kvs).

(** Create [p] unless something is there already. *)
Definition write_new (p : Path) (n : Node) (fs : gmap (list string) Node)
    : gmap (list string) Node :=
  match fs !! p with
  | Some _ => fs
  | None => <[p := n]> fs
  end.

Definition on_fs (f : gmap (list string) Node → gmap (list string) Node)
    (s : St) : St :=
  {| fs := f (fs s); heap := heap s |}.

Definition paths_under (root : Path) : SavePaths :=
  {| dataset := root ++ ["dataset"];
     weights := root ++ ["weights"];
     results := root ++ ["results"];
     results_file := root ++ ["results"; "results.csv"];
     config_file := root ++ ["config"; "config.yml"] |}.

(** The artifact paths of a configuration: under its [name]. *)
Definition paths_for (config_path : Path) (c : Config) : SavePaths :=
  paths_under ["experiments"; name c].

(** Modelled from the spec: DirectoryHelper is not under src/.  The paths
    are a function of the configuration alone; on the first resolution
    the experiment directory is created and the configuration written to
    [config_file]; later resolutions find it and write nothing. *)
Definition directory_helper (config_path : Path) (config : PyObj) : Eff SavePaths :=
  λ s,
  let described :=
    match config with
    | Typed c => Some (name c, [("name", PStr (name c)); ("data", PStr (data c))])
    | Raw (PDict kvs) =>
        match dict_lookup "name" kvs with
        | Some (PStr n) => Some (n, kvs)
        | _ => Some ("run", kvs)
        end
    | Raw _ => None
    end in
  match described with
  | None => (Raise AttributeError, s)
  | Some (n, kvs) =>
      let paths := paths_under ["experiments"; n] in
      if Path_exists (fs s) (config_file paths) then (Ok paths, s)
      else
        (Ok paths,
         on_fs (λ fs, write_new (config_file paths) (File (dump kvs))
                        (write_new ["experiments"; n; "config"] Dir
                           (write_new ["experiments"; n] Dir
                              (write_new ["experiments"] Dir fs)))) s)
  end.

(** The dataset collaborator: the splits are read off the [data] field,
    a comma-separated train split, a bar, a comma-separated test split. *)
Definition decode_splits (text : string) : list string * list string :=
  match cut "|" text with
  | (train, Some test) => (split "," train, split "," test)
  | (train, None) => (split "," train, [])
  end.

Definition dataset_generator (kwargs : string) : Eff string :=
  λ s, (Ok kwargs, s).

Definition generate (dg : string) : Eff (list string * list string) :=
  λ s, (Ok (decode_splits dg),
        {| fs := fs s; heap := Some (decode_splits dg) |}).

Definition persist (dg : string) (dataset_path : Path) : Eff unit :=
  λ s,
  match heap s with
  | None => (Raise AttributeError, s)
  | Some (train, test) =>
      (Ok tt,
       on_fs (λ fs, write_new (dataset_path ++ ["dataset.pkl"])
                      (File (join "," train +:+ "|" +:+ join "," test))
                      (write_new dataset_path Dir fs)) s)
  end.

Definition load (dg : string) (dataset_path : Path)
    : Eff (list string * list string) :=
  λ s,
  match fs s !! (dataset_path ++ ["dataset.pkl"]) with
  | Some (File text) =>
      (Ok (decode_splits text),
       {| fs := fs s; heap := Some (decode_splits text) |})
  | Some Dir => (Raise IsADirectoryError, s)
  | None => (Raise FileNotFoundError, s)
  end.

(** The fine-tuning collaborator; training on a row "oom" fails. *)
Definition lora_finetune (c : Config) (dir_helper : SavePaths) : Eff Path :=
  λ s, (Ok (weights dir_helper), s).

Definition fit (weights_path : Path) (train : list string) : Eff unit :=
  λ s,
  if bool_decide ("oom" ∈ train) then (Raise (RuntimeError "out of memory"), s)
  else (Ok tt, s).

Definition persist_weights (weights_path : Path) : Eff unit :=
  λ s,
  match fs s !! weights_path with
  | Some (File _) => (Raise NotADirectoryError, s)
  | _ =>
      (Ok tt,
       on_fs (λ fs, write_new (weights_path ++ ["adapter_model.bin"])
                      (File "weights")
                      (write_new weights_path Dir fs)) s)
  end.

(** The inference collaborator. *)
Definition lora_inference (test : list string) (test_columns : list string)
    (c : Config) (dir_helper : SavePaths) : Eff (SavePaths * list string) :=
  λ s, (Ok (dir_helper, test), s).

Definition run_all (runner : SavePaths * list string) : Eff unit :=
  λ s,
  (Ok tt,
   on_fs (λ fs, write_new (results_file (fst runner))
                  (File (join "," (snd runner)))
                  (write_new (results (fst runner)) Dir fs)) s).

(** A sweep of two: the configuration under the names "p1" and "p2". *)
Definition permutations (config : PyVal) : Eff (list PyVal) :=
  λ s,
  match config with
  | PDict kvs =>
      (Ok [PDict (("name", PStr "p1") :: kvs);
           PDict (("name", PStr "p2") :: kvs)], s)
  | _ => (Raise TypeError, s)
  end.

Definition collab : @Collab Config string string (list string)
    ValidationFailure Heap SavePaths string Path (SavePaths * list string) :=
  {| Config_validate := validate;
     json := failure_json;
     data_model_dump := data;
     yaml_safe_load := safe_load;
     generate_permutations := permutations;
     DirectoryHelper := directory_helper;
     save_paths := id;
     DatasetGenerator := dataset_generator;
     train_columns := λ _, ["text"];
     test_columns := λ _, ["text"];
     get_dataset := generate;
     save_dataset := persist;
     load_dataset_from_pickle := load;
     LoRAFinetune := lora_finetune;
     finetune := fit;
     save_model := persist_weights;
     LoRAInference := lora_inference;
     infer_all := run_all |}.

(** Two configurations and a few worlds to run them in. *)
Definition good : Config := {| name := "a"; data := "ex1,ex2|ex3" |}.

Definition world (entries : list (Path * Node)) : St :=
  {| fs := list_to_map entries; heap := None |}.

Definition empty_world : St := world [].

(** The experiment directory "a" with the artifact of every stage in it;
    [pickle] is the text of the dataset file. *)
Definition all_artifacts (pickle : string) : list (Path * Node) :=
  [ (["experiments"], Dir);
    (["experiments"; "a"], Dir);
    (["experiments"; "a"; "config"], Dir);
    (["experiments"; "a"; "config"; "config.yml"],
      File (dump [("name", PStr "a"); ("data", PStr "ex1,ex2|ex3")]));
    (["experiments"; "a"; "dataset"], Dir);
    (["experiments"; "a"; "dataset"; "dataset.pkl"], File pickle);
    (["experiments"; "a"; "weights"], Dir);
    (["experiments"; "a"; "weights"; "adapter_model.bin"], File "weights");
    (["experiments"; "a"; "results"], Dir);
    (["experiments"; "a"; "results"; "results.csv"], File "ex3") ].

(** Rows that make training fail. *)
Definition oom : Config := {| name := "a"; data := "oom,ex2|ex3" |}.

Definition newline : string := String "010" "".

(** A world whose [config.yml] holds [text], next to [entries]. *)
Definition with_config (text : string) (entries : list (Path * Node)) : St :=
  world ((["config.yml"], File text) :: entries).

(** An experiment directory [n] that holds a persisted configuration and
    nothing else. *)
Definition persisted_config (n text : string) : list (Path * Node) :=
  [ (["experiments"], Dir);
    (["experiments"; n], Dir);
    (["experiments"; n; "config"], Dir);
    (["experiments"; n; "config"; "config.yml"], File text) ].

(** A sweep request with no [data]: no member validates. *)
Definition sweep_text : string := "ablation: {use_ablate: true}".

Definition sweep_item (n : string) : PyVal :=
  PDict [("name", PStr n); ("ablation", PDict [("use_ablate", PBool true)])].

Definition fresh_sweep : St := with_config sweep_text [].

(** The same request, but the directory of member "p1" already holds a
    valid persisted configuration. *)
Definition resumed_sweep : St :=
  with_config sweep_text
    (persisted_config "p1" ("name: p1" +:+ newline +:+ "data: ex1,ex2|ex3")).

(** [config.yml] was edited after experiment "a" had run. *)
Definition edited : PyVal :=
  PDict [("name", PStr "a"); ("data", PStr "new1|new2")].

Definition edited_after_run : St :=
  with_config ("name: a" +:+ newline +:+ "data: new1|new2")
    (all_artifacts "ex1,ex2|ex3").

(** [config.yml] lost its [data] after experiment "a" had run. *)
Definition broken_after_run : St :=
  with_config "name: a" (all_artifacts "ex1,ex2|ex3").

(** A valid configuration whose two splits are empty. *)
Definition empty_splits : St :=
  with_config ("name: b" +:+ newline +:+ "data: |") [].

(** Only the dataset of "a" is there. *)
Definition dataset_only : list (Path * Node) :=
  [ (["experiments"], Dir);
    (["experiments"; "a"], Dir);
    (["experiments"; "a"; "dataset"], Dir);
    (["experiments"; "a"; "dataset"; "dataset.pkl"], File "ex1,ex2|ex3") ].
End Demo.

(** ** Vocabulary of the properties *)

(** The ablation-enable flag of a raw configuration, when it has one:
    the entry [use_ablate] of the mapping under [ablation]. *)
Definition ablation_flag (config : PyVal) : option PyVal :=
  match config with
  | PDict kvs =>
      match dict_lookup "ablation" kvs with
      | Some (PDict section) => dict_lookup "use_ablate" section
      | _ => None
      end
  | _ => None
  end.

(** The [ablation] entry is missing or is itself a mapping. *)
Definition ablation_section_ok (kvs : list (string * PyVal)) : bool :=
  match dict_lookup "ablation" kvs with
  | None | Some (PDict _) => true
  | Some _ => false
  end.

(** A weights directory that is there and has something in it. *)
Definition weights_in_place (fs : gmap (list string) Node) (p : Path) : bool :=
  match fs !! p with
  | Some Dir => any_path (children fs p)
  | _ => false
  end.

Section Vocabulary.
Context {Config DataKwargs Example Columns DirectoryHelperT : Type}.
Abbreviation EventT :=
  (@Event Config DataKwargs Example Columns DirectoryHelperT).

(** The "do work" calls of each stage. *)
Definition is_generation (ev : EventT) : bool :=
  match ev with
  | EvCall Cget_dataset | EvCall (Csave_dataset _) => true
  | _ => false
  end.

Definition is_finetune_call (ev : EventT) : bool :=
  match ev with
  | EvCall (CLoRAFinetune _ _) | EvCall (Cfinetune _) | EvCall Csave_model => true
  | _ => false
  end.

Definition is_inference_call (ev : EventT) : bool :=
  match ev with
  | EvCall (CLoRAInference _ _ _ _) | EvCall Cinfer_all => true
  | _ => false
  end.

Definition is_work (ev : EventT) : bool :=
  is_generation ev || is_finetune_call ev || is_inference_call ev.

(** No event of the trace satisfies [p]. *)
Definition none_of (p : EventT → bool) (t : list EventT) : bool :=
  forallb (λ ev, negb (p ev)) t.
End Vocabulary.

(** The two "do work" branches, call by call: where each can stop, and
    what has been called by then. *)
Section Outcomes.
Context {Config DataKwargs Example Columns ValidationFailure Heap : Type}.
Context {DirectoryHelperT DatasetGeneratorT LoRAFinetuneT LoRAInferenceT : Type}.
Variable K : @Collab Config DataKwargs Example Columns ValidationFailure Heap
    DirectoryHelperT DatasetGeneratorT LoRAFinetuneT LoRAInferenceT.

Implicit Types (config : Config) (dir_helper : DirectoryHelperT).
Implicit Types (s : @St Heap) (train test : list Example).

Local Abbreviation Out A :=
  (result ValidationFailure A * @St Heap
   * list (@Event Config DataKwargs Example Columns DirectoryHelperT))%type.

(** The end of Stage 1 (lines 57-58), for splits already in memory. *)
Definition display_outcome (dg : DatasetGeneratorT) dir_helper train test s
    (t : list (@Event Config DataKwargs Example Columns DirectoryHelperT))
    : Out (Columns * list Example * list Example) :=
  match train, test with
  | x :: _, y :: _ =>
      (Ok (test_columns K dg, train, test), s,
       t ++ [EvUI (dataset_display_one_example x y);
             EvUI (after_dataset_creation
                     (dataset (save_paths K dir_helper)) train test)])
  | _, _ => (Raise IndexError, s, t)
  end.

(** Stage 1, call by call. *)
Definition dataset_outcome config dir_helper s
    : Out (Columns * list Example * list Example) :=
  let dataset_path := dataset (save_paths K dir_helper) in
  let prologue :=
    [EvUI before_dataset_creation;
     EvUI (during_dataset_creation "Injecting Values into Prompt" "monkey");
     EvCall (CDatasetGenerator (data_model_dump K config))] in
  match DatasetGenerator K (data_model_dump K config) s with
  | (Raise e, s1) => (Raise e, s1, prologue)
  | (Ok dg, s1) =>
      if Path_exists (fs s1) dataset_path then
        match load_dataset_from_pickle K dg dataset_path s1 with
        | (Raise e, s2) =>
            (Raise e, s2,
             prologue ++ [EvUI (dataset_found dataset_path);
                          EvCall (Cload_dataset_from_pickle dataset_path)])
        | (Ok (train, test), s2) =>
            display_outcome dg dir_helper train test s2
              (prologue ++ [EvUI (dataset_found dataset_path);
                            EvCall (Cload_dataset_from_pickle dataset_path)])
        end
      else
        match get_dataset K dg s1 with
        | (Raise e, s2) => (Raise e, s2, prologue ++ [EvCall Cget_dataset])
        | (Ok (train, test), s2) =>
            match save_dataset K dg dataset_path s2 with
            | (Raise e, s3) =>
                (Raise e, s3,
                 prologue ++ [EvCall Cget_dataset;
                              EvCall (Csave_dataset dataset_path)])
            | (Ok _, s3) =>
                display_outcome dg dir_helper train test s3
                  (prologue ++ [EvCall Cget_dataset;
                                EvCall (Csave_dataset dataset_path)])
            end
        end
  end.

(** Stage 2 when it has to train (the branch of lines 67-71). *)
Definition finetune_outcome config dir_helper train s : Out unit :=
  match LoRAFinetune K config dir_helper s with
  | (Raise e, s1) =>
      (Raise e, s1,
       [EvUI before_finetune; EvCall (CLoRAFinetune config dir_helper)])
  | (Ok finetuner, s1) =>
      match finetune K finetuner train s1 with
      | (Raise e, s2) =>
          (Raise e, s2,
           [EvUI before_finetune; EvCall (CLoRAFinetune config dir_helper);
            EvUI during_finetune; EvCall (Cfinetune train)])
      | (Ok _, s2) =>
          match save_model K finetuner s2 with
          | (Raise e, s3) =>
              (Raise e, s3,
               [EvUI before_finetune; EvCall (CLoRAFinetune config dir_helper);
                EvUI during_finetune; EvCall (Cfinetune train);
                EvCall Csave_model])
          | (Ok _, s3) =>
              (Ok tt, s3,
               [EvUI before_finetune; EvCall (CLoRAFinetune config dir_helper);
                EvUI during_finetune; EvCall (Cfinetune train);
                EvCall Csave_model; EvUI after_finetune])
          end
      end
  end.

(** Stage 3 when it has to infer (the branch of lines 80-82). *)
Definition inference_outcome config dir_helper test (cols : Columns) s : Out unit :=
  match LoRAInference K test cols config dir_helper s with
  | (Raise e, s1) =>
      (Raise e, s1,
       [EvUI before_inference;
        EvCall (CLoRAInference test cols config dir_helper)])
  | (Ok runner, s1) =>
      match infer_all K runner s1 with
      | (Raise e, s2) =>
          (Raise e, s2,
           [EvUI before_inference;
            EvCall (CLoRAInference test cols config dir_helper);
            EvCall Cinfer_all])
      | (Ok _, s2) =>
          (Ok tt, s2,
           [EvUI before_inference;
            EvCall (CLoRAInference test cols config dir_helper);
            EvCall Cinfer_all;
            EvUI (after_inference (results (save_paths K dir_helper)))])
      end
  end.

End Outcomes.

(** ** What the pipeline expects of its collaborators

    Modelled from the spec: the collaborators are not under src/.  These are
    the contracts of the spec for the artifact directory, as far as the
    pipeline relies on them when it is run again.  The file system here is
    that directory: what a collaborator keeps elsewhere (caches, logs) is
    not in it. *)
Section Contracts.
Context {Config DataKwargs Example Columns ValidationFailure Heap : Type}.
Context {DirectoryHelperT DatasetGeneratorT LoRAFinetuneT LoRAInferenceT : Type}.
Variable K : @Collab Config DataKwargs Example Columns ValidationFailure Heap
    DirectoryHelperT DatasetGeneratorT LoRAFinetuneT LoRAInferenceT.

(** The call never removes or rewrites what is on disk. *)
Definition grows {A} (call : @Eff ValidationFailure Heap A) : Prop :=
  ∀ s, fs s ⊆ fs (call s).2.

(** The call leaves the disk as it is. *)
Definition reads {A} (call : @Eff ValidationFailure Heap A) : Prop :=
  ∀ s, fs (call s).2 = fs s.

Record Contracts (paths_of : Path → Config → SavePaths) : Prop := {
  (** path resolution is a function of its arguments *)
  resolve_paths : ∀ p c s dh s',
    DirectoryHelper K p (Typed c) s = (Ok dh, s') →
    save_paths K dh = paths_of p c;
  (** the configuration is persisted eagerly *)
  resolve_persists : ∀ p c s dh s',
    DirectoryHelper K p (Typed c) s = (Ok dh, s') →
    Path_exists (fs s') (config_file (paths_of p c)) = true;
  (** and is not written again once it is there *)
  resolve_again : ∀ p c s,
    Path_exists (fs s) (config_file (paths_of p c)) = true →
    fs (DirectoryHelper K p (Typed c) s).2 = fs s;
  resolve_grows : ∀ p c, grows (DirectoryHelper K p (Typed c));
  (** the dataset collaborator *)
  generator_reads : ∀ kwargs, reads (DatasetGenerator K kwargs);
  get_dataset_grows : ∀ dg, grows (get_dataset K dg);
  save_dataset_grows : ∀ dg p, grows (save_dataset K dg p);
  save_dataset_creates : ∀ dg p s s',
    save_dataset K dg p s = (Ok tt, s') → Path_exists (fs s') p = true;
  load_reads : ∀ dg p, reads (load_dataset_from_pickle K dg p);
  (** the fine-tuning collaborator *)
  LoRAFinetune_grows : ∀ c dh, grows (LoRAFinetune K c dh);
  finetune_grows : ∀ ft train, grows (finetune K ft train);
  save_model_grows : ∀ ft, grows (save_model K ft);
  save_model_fills : ∀ c dh s0 ft s0' s s',
    LoRAFinetune K c dh s0 = (Ok ft, s0') →
    save_model K ft s = (Ok tt, s') →
    weights_in_place (fs s') (weights (save_paths K dh)) = true;
  (** the inference collaborator *)
  LoRAInference_grows : ∀ test cols c dh, grows (LoRAInference K test cols c dh);
  infer_all_grows : ∀ runner, grows (infer_all K runner);
  infer_all_writes : ∀ test cols c dh s0 runner s0' s s',
    LoRAInference K test cols c dh s0 = (Ok runner, s0') →
    infer_all K runner s = (Ok tt, s') →
    Path_exists (fs s') (results_file (save_paths K dh)) = true
}.

(** Every stage finds its artifact. *)
Definition complete (fs : gmap (list string) Node) (paths : SavePaths) : Prop :=
  Path_exists fs (config_file paths) = true
  ∧ Path_exists fs (dataset paths) = true
  ∧ weights_in_place fs (weights paths) = true
  ∧ Path_exists fs (results_file paths) = true.
End Contracts.

(** ** The [generate config] command, lines 123-132

    The command touches the file system only through [shutil.copy]; it
    makes no call into the collaborators of the pipeline. *)

Module shutil.
(** What [shutil.copy] raises. *)
Inductive error : Type :=
| FileNotFoundError
| IsADirectoryError
| NotADirectoryError
| SameFileError.

(** [os.path.basename] of a path. *)
Definition basename (p : Path) : string := default "" (last p).

(** [open(target, "wb")] followed by the write: the target must not be a
    directory and must sit in one. *)
Definition write (target : Path) (content : string)
    (fs : gmap (list string) Node) : error + gmap (list string) Node :=
  match fs !! target with
  | Some Dir => inl IsADirectoryError
  | _ =>
      match fs !! removelast target with
      | Some Dir => inr (<[target := File content]> fs)
      | Some (File _) => inl NotADirectoryError
      | None => inl FileNotFoundError
      end
  end.

(** [shutil.copy(src, dst)]: into [dst] when it is a directory, onto it
    otherwise; source and target being one existing file is refused first,
    then the source is opened, then the target. *)
Definition copy (src dst : Path) (fs : gmap (list string) Node)
    : error + gmap (list string) Node :=
  let target :=
    match fs !! dst with
    | Some Dir => dst ++ [basename src]
    | _ => dst
    end in
  if bool_decide (src = target) && Path_exists fs src then inl SameFileError
  else
    match fs !! src with
    | None => inl FileNotFoundError
    | Some Dir => inl IsADirectoryError
    | Some (File content) => write target content fs
    end.
End shutil.

(** [RichUI.generate_config(fname)], the one status message of the command. *)
Inductive ConfigUi : Type :=
| RichUI_generate_config (fname : string).

(** [generate_config()].  The three things it reads from its environment
    are arguments here: [llmtune.__file__], the constant
    [EXAMPLE_CONFIG_FNAME] (one file name) and [Path.cwd()].  The outcome
    is the error raised if any, the file system, and the messages shown. *)
Definition generate_config (llmtune_file : Path) (EXAMPLE_CONFIG_FNAME : string)
    (cwd : Path) (fs : gmap (list string) Node)
    : option shutil.error * gmap (list string) Node * list ConfigUi :=
  let module_path := llmtune_file in
  let example_config_path := removelast module_path ++ [EXAMPLE_CONFIG_FNAME] in
  let destination := cwd in
  match shutil.copy example_config_path destination fs with
  | inl e => (Some e, fs, [])
  | inr fs' => (None, fs', [RichUI_generate_config EXAMPLE_CONFIG_FNAME])
  end.

(** ** More vocabulary *)

Section Calls.
Context {Config DataKwargs Example Columns DirectoryHelperT : Type}.

(** The entries into the pipeline recorded in a trace, in order. *)
Definition pipeline_calls
    (t : list (@Event Config DataKwargs Example Columns DirectoryHelperT))
    : list (Config * Path) :=
  omap (λ ev, match ev with
              | EvCall (Crun_one_experiment c p) => Some (c, p)
              | _ => None
              end) t.
End Calls.

(** ** More collaborators and worlds *)

Module Cases.
(** [Demo.collab] with another loader, sweep and dataset constructor. *)
Definition variant
    (loader : string → result Demo.ValidationFailure PyVal)
    (sweep : PyVal → Demo.Eff (list PyVal))
    (generator : string → Demo.Eff string) :=
  {| Config_validate := Demo.validate;
     json := Demo.failure_json;
     data_model_dump := Demo.data;
     yaml_safe_load := loader;
     generate_permutations := sweep;
     DirectoryHelper := Demo.directory_helper;
     save_paths := id;
     DatasetGenerator := generator;
     train_columns := λ _, ["text"];
     test_columns := λ _, ["text"];
     get_dataset := Demo.generate;
     save_dataset := Demo.persist;
     load_dataset_from_pickle := Demo.load;
     LoRAFinetune := Demo.lora_finetune;
     finetune := Demo.fit;
     save_model := Demo.persist_weights;
     LoRAInference := Demo.lora_inference;
     infer_all := Demo.run_all |}.

(** The raw records cannot be read: the dataset constructor raises. *)
Definition offline :=
  variant Demo.safe_load Demo.permutations
    (λ _ s, (Raise (RuntimeError "dataset unavailable"), s)).

(** A loader for which the empty document is [None]. *)
Definition strict :=
  variant (λ text, if String.eqb text "" then Ok PNone else Demo.safe_load text)
    Demo.permutations Demo.dataset_generator.

(** A sweep with no member. *)
Definition barren :=
  variant Demo.safe_load (λ _ s, (Ok [], s)) Demo.dataset_generator.

(** The dataset of "a" is there, and a regular file where its weights
    directory should be. *)
Definition weights_as_file : Demo.St :=
  Demo.world ((["experiments"; "a"; "weights"], File "not a directory")
              :: Demo.dataset_only).

(** A sweep whose members validate but have empty splits. *)
Definition doomed_sweep : Demo.St :=
  Demo.with_config (Demo.sweep_text +:+ Demo.newline +:+ "data: |") [].

Definition doomed_item (n : string) : PyVal :=
  PDict [("name", PStr n);
         ("ablation", PDict [("use_ablate", PBool true)]);
         ("data", PStr "|")].

(** A sweep whose two members both run to the end. *)
Definition sound_sweep : Demo.St :=
  Demo.with_config (Demo.sweep_text +:+ Demo.newline +:+ "data: ex1,ex2|ex3") [].

(** An installed package and a working directory, for [generate_config]. *)
Definition installed (existing : list (Path * Node)) : gmap (list string) Node :=
  list_to_map
    ([ (["site-packages"], Dir);
       (["site-packages"; "llmtune"], Dir);
       (["site-packages"; "llmtune"; "__init__.py"], File "");
       (["site-packages"; "llmtune"; "config.yml"], File "name: example");
       (["work"], Dir) ] ++ existing).
End Cases.

(** * Properties *)

Arguments Path_exists : simpl never.
Arguments children : simpl never.

(** Unfold the orchestration code down to the calls it makes. *)
Ltac munfold :=
  unfold run, run_config, validate_first, expand_configs, run_one_experiment,
    stage_dataset, stage_finetune, stage_inference, weights_missing,
    Config_new, try_except_ValidationError, py_get, getitem0,
    RichUI, print, log, lift, raise, invoke, exists_, iterdir, open_r,
    mbind, M_bind, mret, M_ret in *.

Ltac msimpl :=
  cbn beta iota zeta delta [app fst snd negb any_path for_each default from_option id] in *.

(** Replace the calls whose outcome is known, and reduce. *)
Ltac mstep :=
  match goal with
  | H : ?call = _ |- context [?call] => rewrite H
  end.

Ltac mrun := munfold; msimpl; repeat (mstep; msimpl).

(** An outcome is its result next to its own world and trace: enough to
    check the result of a concrete run without printing the world. *)
Lemma eff_outcome {A B : Type} (o : A * B) (r : A) : o.1 = r → o = (r, o.2).
Proof. destruct o. cbn. congruence. Qed.

Lemma m_outcome {A B C : Type} (o : A * B * C) (r : A) :
  o.1.1 = r → o = (r, o.1.2, o.2).
Proof. destruct o as [[? ?] ?]. cbn. congruence. Qed.

Ltac by_run :=
  first [apply m_outcome | apply eff_outcome | idtac]; vm_compute; reflexivity.

Section ExpandProps.
Context {Config DataKwargs Example Columns ValidationFailure Heap : Type}.
Context {DirectoryHelperT DatasetGeneratorT LoRAFinetuneT LoRAInferenceT : Type}.
Variable K : @Collab Config DataKwargs Example Columns ValidationFailure Heap
    DirectoryHelperT DatasetGeneratorT LoRAFinetuneT LoRAInferenceT.

(** C4 (amended).  For a raw configuration whose [ablation] entry is
    missing or is a mapping, and whose ablation-enable flag is absent or
    falsy (in particular [False]), the expansion is the one-element list
    holding the configuration itself; nothing is called and the world is
    untouched. *)
Theorem expand_disabled_identity (kvs : list (string * PyVal)) (s : St) :
  ablation_section_ok kvs = true →
  match ablation_flag (PDict kvs) with
  | None => True
  | Some flag => truthy flag = false
  end →
  expand_configs K (PDict kvs) s = (Ok [PDict kvs], s, []).
Proof.
  unfold ablation_section_ok, ablation_flag.
  intros Hsec Hflag. munfold. msimpl.
  destruct (dict_lookup "ablation" kvs) as [[]|] eqn:Hab;
    try discriminate; msimpl.
  - destruct (dict_lookup "use_ablate" kvs0) as [flag|]; msimpl.
    + rewrite Hflag. reflexivity.
    + reflexivity.
  - reflexivity.
Qed.
End ExpandProps.

(** The flag set to [False]: the configuration comes back alone. *)
Lemma expand_disabled_identity_witness :
  let kvs := [("ablation", PDict [("use_ablate", PBool false)]);
              ("data", PStr "ex1|ex2")] in
  expand_configs Demo.collab (PDict kvs) Demo.empty_world
  = (Ok [PDict kvs], Demo.empty_world, []).
Proof.
  intros kvs.
  apply (expand_disabled_identity Demo.collab kvs Demo.empty_world);
    reflexivity.
Defined.

(** C4, as stated, fails: with [ablation:] left empty in the file the
    flag is absent, yet the second [.get] is applied to [None] and raises. *)
Lemma expand_null_section_raises :
  let config := PDict [("ablation", PNone); ("data", PStr "ex1|ex2")] in
  ablation_flag config = None
  ∧ expand_configs Demo.collab config Demo.empty_world
    = (Raise AttributeError, Demo.empty_world, []).
Proof. split; reflexivity. Qed.

(** Case analysis on the outcome of every call still in the goal. *)
Ltac mcases :=
  repeat match goal with
         | |- context [match ?x with _ => _ end] =>
             lazymatch x with
             | context [match _ with _ => _ end] => fail
             | _ => destruct x eqn:?; msimpl
             end
         end.

Section StageProps.
Context {Config DataKwargs Example Columns ValidationFailure Heap : Type}.
Context {DirectoryHelperT DatasetGeneratorT LoRAFinetuneT LoRAInferenceT : Type}.
Variable K : @Collab Config DataKwargs Example Columns ValidationFailure Heap
    DirectoryHelperT DatasetGeneratorT LoRAFinetuneT LoRAInferenceT.

Implicit Types (config : Config) (dir_helper : DirectoryHelperT).
Implicit Types (s : @St Heap) (train test : list Example).

(** *** Stage 1 *)

Lemma stage_dataset_hit config dir_helper s dg s1 train test s2 x xs y ys :
  DatasetGenerator K (data_model_dump K config) s = (Ok dg, s1) →
  Path_exists (fs s1) (dataset (save_paths K dir_helper)) = true →
  load_dataset_from_pickle K dg (dataset (save_paths K dir_helper)) s1
    = (Ok (train, test), s2) →
  train = x :: xs → test = y :: ys →
  stage_dataset K config dir_helper s
  = (Ok (test_columns K dg, train, test), s2,
     [EvUI before_dataset_creation;
      EvUI (during_dataset_creation "Injecting Values into Prompt" "monkey");
      EvCall (CDatasetGenerator (data_model_dump K config));
      EvUI (dataset_found (dataset (save_paths K dir_helper)));
      EvCall (Cload_dataset_from_pickle (dataset (save_paths K dir_helper)));
      EvUI (dataset_display_one_example x y);
      EvUI (after_dataset_creation (dataset (save_paths K dir_helper)) train test)]).
Proof. intros Hdg Hex Hload -> ->. mrun. reflexivity. Qed.

Lemma stage_dataset_miss config dir_helper s dg s1 train test s2 s3 x xs y ys :
  DatasetGenerator K (data_model_dump K config) s = (Ok dg, s1) →
  Path_exists (fs s1) (dataset (save_paths K dir_helper)) = false →
  get_dataset K dg s1 = (Ok (train, test), s2) →
  save_dataset K dg (dataset (save_paths K dir_helper)) s2 = (Ok tt, s3) →
  train = x :: xs → test = y :: ys →
  stage_dataset K config dir_helper s
  = (Ok (test_columns K dg, train, test), s3,
     [EvUI before_dataset_creation;
      EvUI (during_dataset_creation "Injecting Values into Prompt" "monkey");
      EvCall (CDatasetGenerator (data_model_dump K config));
      EvCall Cget_dataset;
      EvCall (Csave_dataset (dataset (save_paths K dir_helper)));
      EvUI (dataset_display_one_example x y);
      EvUI (after_dataset_creation (dataset (save_paths K dir_helper)) train test)]).
Proof. intros Hdg Hex Hget Hsave -> ->. mrun. reflexivity. Qed.

(** With the dataset on disk nothing is generated, however the stage ends. *)
Lemma stage_dataset_hit_no_generation config dir_helper s dg s1 :
  DatasetGenerator K (data_model_dump K config) s = (Ok dg, s1) →
  Path_exists (fs s1) (dataset (save_paths K dir_helper)) = true →
  none_of is_generation (stage_dataset K config dir_helper s).2 = true.
Proof. intros Hdg Hex. mrun. mcases; reflexivity. Qed.

(** An empty split stops the stage at the display, in either branch. *)
Lemma stage_dataset_hit_empty config dir_helper s dg s1 train test s2 :
  DatasetGenerator K (data_model_dump K config) s = (Ok dg, s1) →
  Path_exists (fs s1) (dataset (save_paths K dir_helper)) = true →
  load_dataset_from_pickle K dg (dataset (save_paths K dir_helper)) s1
    = (Ok (train, test), s2) →
  train = [] ∨ test = [] →
  stage_dataset K config dir_helper s
  = (Raise IndexError, s2,
     [EvUI before_dataset_creation;
      EvUI (during_dataset_creation "Injecting Values into Prompt" "monkey");
      EvCall (CDatasetGenerator (data_model_dump K config));
      EvUI (dataset_found (dataset (save_paths K dir_helper)));
      EvCall (Cload_dataset_from_pickle (dataset (save_paths K dir_helper)))]).
Proof.
  intros Hdg Hex Hload Hempty. mrun.
  destruct Hempty as [-> | ->]; [reflexivity | destruct train; reflexivity].
Qed.

Lemma stage_dataset_miss_empty config dir_helper s dg s1 train test s2 s3 :
  DatasetGenerator K (data_model_dump K config) s = (Ok dg, s1) →
  Path_exists (fs s1) (dataset (save_paths K dir_helper)) = false →
  get_dataset K dg s1 = (Ok (train, test), s2) →
  save_dataset K dg (dataset (save_paths K dir_helper)) s2 = (Ok tt, s3) →
  train = [] ∨ test = [] →
  stage_dataset K config dir_helper s
  = (Raise IndexError, s3,
     [EvUI before_dataset_creation;
      EvUI (during_dataset_creation "Injecting Values into Prompt" "monkey");
      EvCall (CDatasetGenerator (data_model_dump K config));
      EvCall Cget_dataset;
      EvCall (Csave_dataset (dataset (save_paths K dir_helper)))]).
Proof.
  intros Hdg Hex Hget Hsave Hempty. mrun.
  destruct Hempty as [-> | ->]; [reflexivity | destruct train; reflexivity].
Qed.

(** *** How [run_one_experiment] chains the stages *)

Lemma run_one_experiment_resolve_raises config config_path s e s1 :
  DirectoryHelper K config_path (Typed config) s = (Raise e, s1) →
  run_one_experiment K config config_path s
  = (Raise e, s1, [EvCall (CDirectoryHelper config_path (Typed config))]).
Proof. intros H. mrun. reflexivity. Qed.

Lemma run_one_experiment_dataset_raises config config_path s dh s1 e s2 t1 :
  DirectoryHelper K config_path (Typed config) s = (Ok dh, s1) →
  stage_dataset K config dh s1 = (Raise e, s2, t1) →
  run_one_experiment K config config_path s
  = (Raise e, s2, EvCall (CDirectoryHelper config_path (Typed config)) :: t1).
Proof.
  intros Hdh Hst. unfold run_one_experiment.
  unfold mbind at 1, M_bind at 1, invoke at 1. rewrite Hdh. msimpl.
  unfold mbind at 1, M_bind at 1. rewrite Hst. reflexivity.
Qed.

Lemma run_one_experiment_stages config config_path s dh s1 cols train test s2 t1 :
  DirectoryHelper K config_path (Typed config) s = (Ok dh, s1) →
  stage_dataset K config dh s1 = (Ok (cols, train, test), s2, t1) →
  run_one_experiment K config config_path s
  = match stage_finetune K config dh train s2 with
    | (Ok _, s3, t2) =>
        let '(r, s4, t3) := stage_inference K config dh test cols s3 in
        (r, s4, EvCall (CDirectoryHelper config_path (Typed config))
                  :: t1 ++ t2 ++ t3)
    | (Raise e, s3, t2) =>
        (Raise e, s3, EvCall (CDirectoryHelper config_path (Typed config))
                        :: t1 ++ t2)
    end.
Proof.
  intros Hdh Hst. unfold run_one_experiment.
  unfold mbind at 1, M_bind at 1, invoke at 1. rewrite Hdh. msimpl.
  unfold mbind at 1, M_bind at 1. rewrite Hst. msimpl.
  unfold mbind at 1, M_bind at 1.
  destruct (stage_finetune K config dh train s2) as [[[[]|e] s3] t2]; msimpl.
  - destruct (stage_inference K config dh test cols s3) as [[r s4] t3].
    reflexivity.
  - reflexivity.
Qed.
End StageProps.

Section StageOutcomes.
Context {Config DataKwargs Example Columns ValidationFailure Heap : Type}.
Context {DirectoryHelperT DatasetGeneratorT LoRAFinetuneT LoRAInferenceT : Type}.
Variable K : @Collab Config DataKwargs Example Columns ValidationFailure Heap
    DirectoryHelperT DatasetGeneratorT LoRAFinetuneT LoRAInferenceT.

Implicit Types (config : Config) (dir_helper : DirectoryHelperT).
Implicit Types (s : @St Heap) (train test : list Example).

Local Abbreviation Out A :=
  (result ValidationFailure A * @St Heap
   * list (@Event Config DataKwargs Example Columns DirectoryHelperT))%type.

(** *** Stage 2 *)

Lemma Path_exists_lookup (fs : gmap (list string) Node) p :
  Path_exists fs p = match fs !! p with Some _ => true | None => false end.
Proof.
  unfold Path_exists. destruct (fs !! p) eqn:E.
  - apply bool_decide_eq_true. eauto.
  - apply bool_decide_eq_false. intros [? ?]. discriminate.
Qed.

Lemma weights_missing_run (p : Path) s :
  @weights_missing Config DataKwargs Example Columns ValidationFailure Heap
    DirectoryHelperT p s
  = match fs s !! p with
    | None => (Ok true, s, [])
    | Some Dir => (Ok (negb (any_path (children (fs s) p))), s, [])
    | Some (File _) => (Raise NotADirectoryError, s, [])
    end.
Proof.
  munfold. rewrite Path_exists_lookup.
  destruct (fs s !! p) as [[]|] eqn:E; msimpl; rewrite ?E; reflexivity.
Qed.

Lemma stage_finetune_run config dir_helper train s :
  stage_finetune K config dir_helper train s
  = match fs s !! weights (save_paths K dir_helper) with
    | Some (File _) => (Raise NotADirectoryError, s, [EvUI before_finetune])
    | Some Dir =>
        if any_path (children (fs s) (weights (save_paths K dir_helper)))
        then (Ok tt, s, [EvUI before_finetune;
                         EvUI (finetune_found (weights (save_paths K dir_helper)))])
        else finetune_outcome K config dir_helper train s
    | None => finetune_outcome K config dir_helper train s
    end.
Proof.
  unfold stage_finetune, finetune_outcome.
  unfold mbind at 1, M_bind at 1. unfold RichUI at 1, log at 1. msimpl.
  unfold mbind at 1, M_bind at 1. rewrite weights_missing_run.
  destruct (fs s !! weights (save_paths K dir_helper)) as [[]|]; msimpl;
    try reflexivity.
  - destruct (children (fs s) (weights (save_paths K dir_helper))); msimpl.
    + munfold. msimpl. mcases; reflexivity.
    + reflexivity.
  - munfold. msimpl. mcases; reflexivity.
Qed.

Lemma finetune_outcome_calls config dir_helper train s :
  none_of is_finetune_call (finetune_outcome K config dir_helper train s).2 = false.
Proof. unfold finetune_outcome. mcases; reflexivity. Qed.

Lemma stage_finetune_no_inference config dir_helper train s :
  none_of is_inference_call (stage_finetune K config dir_helper train s).2 = true.
Proof.
  rewrite stage_finetune_run. unfold finetune_outcome. mcases; reflexivity.
Qed.

Lemma stage_dataset_no_inference config dir_helper s :
  none_of is_inference_call (stage_dataset K config dir_helper s).2 = true.
Proof. munfold. msimpl. mcases; reflexivity. Qed.

(** *** Stage 3 *)

Lemma stage_inference_run config dir_helper test cols s :
  stage_inference K config dir_helper test cols s
  = if Path_exists (fs s) (results_file (save_paths K dir_helper))
    then (Ok tt, s, [EvUI before_inference;
                     EvUI (results_found (results (save_paths K dir_helper)))])
    else inference_outcome K config dir_helper test cols s.
Proof.
  unfold inference_outcome. munfold. msimpl.
  destruct (Path_exists _ _); msimpl; [reflexivity|].
  mcases; reflexivity.
Qed.
End StageOutcomes.

Section PipelineTheorems.
Context {Config DataKwargs Example Columns ValidationFailure Heap : Type}.
Context {DirectoryHelperT DatasetGeneratorT LoRAFinetuneT LoRAInferenceT : Type}.
Variable K : @Collab Config DataKwargs Example Columns ValidationFailure Heap
    DirectoryHelperT DatasetGeneratorT LoRAFinetuneT LoRAInferenceT.

Implicit Types (config : Config) (dir_helper : DirectoryHelperT).
Implicit Types (s : @St Heap) (train test : list Example).

(** C3.  Stage 2 is skipped (it returns without any call to the
    fine-tuning collaborator) exactly when the weights path is a directory
    with at least one entry; then nothing happens but the two status
    messages.  When the path is missing or is an empty directory,
    [LoRAFinetune(config, dir_helper)] is constructed, [finetune] is run on
    the [train] argument and [save_model] persists the weights, in that
    order; and the [train] argument is the train split of Stage 1. *)
Theorem finetune_skipped_iff_weights_in_place config dir_helper train s :
  let weights_path := weights (save_paths K dir_helper) in
  let out := stage_finetune K config dir_helper train s in
  (weights_in_place (fs s) weights_path = true
   ↔ out.1.1 = Ok tt ∧ none_of is_finetune_call out.2 = true)
  ∧ (weights_in_place (fs s) weights_path = true →
     out = (Ok tt, s, [EvUI before_finetune; EvUI (finetune_found weights_path)]))
  ∧ (Path_exists (fs s) weights_path = false
     ∨ (fs s !! weights_path = Some Dir ∧ children (fs s) weights_path = []) →
     out = finetune_outcome K config dir_helper train s)
  ∧ (∀ config_path s0 s1 cols test t1,
       DirectoryHelper K config_path (Typed config) s0 = (Ok dir_helper, s1) →
       stage_dataset K config dir_helper s1 = (Ok (cols, train, test), s, t1) →
       ∃ t3, (run_one_experiment K config config_path s0).2
             = EvCall (CDirectoryHelper config_path (Typed config))
                 :: t1 ++ out.2 ++ t3).
Proof.
  intros wp out. subst out. rewrite stage_finetune_run.
  unfold weights_in_place. fold wp. rewrite Path_exists_lookup.
  split; [split | split; [| split]].
  - destruct (fs s !! wp) as [[]|]; try discriminate.
    intros ->. split; reflexivity.
  - destruct (fs s !! wp) as [[]|]; msimpl.
    + intros [? _]. discriminate.
    + destruct (any_path (children (fs s) wp)); [reflexivity|].
      rewrite finetune_outcome_calls. intros [_ ?]. discriminate.
    + rewrite finetune_outcome_calls. intros [_ ?]. discriminate.
  - destruct (fs s !! wp) as [[]|]; try discriminate.
    intros ->. reflexivity.
  - intros [Hno | [Hdir Hempty]].
    + destruct (fs s !! wp); [discriminate | reflexivity].
    + rewrite Hdir, Hempty. reflexivity.
  - intros config_path s0 s1 cols test t1 Hdh Hst.
    rewrite (run_one_experiment_stages K _ _ _ _ _ _ _ _ _ _ Hdh Hst).
    rewrite stage_finetune_run. fold wp.
    destruct (match fs s !! wp with
              | Some (File _) => _ | Some Dir => _ | None => _ end)
      as [[[[]|e] s3] t2]; msimpl.
    + destruct (stage_inference K config dir_helper test cols s3)
        as [[r s4] t3]. exists t3. reflexivity.
    + exists []. rewrite app_nil_r. reflexivity.
Qed.

(** C7.  If Stage 2 raises (the fine-tuning collaborator failing in its
    constructor, in [finetune] or in [save_model]), [run_one_experiment]
    raises the same exception there and then: the trace ends with Stage 2
    and holds no call to the inference collaborator, neither its
    constructor nor [infer_all]. *)
Theorem finetune_failure_stops_pipeline
    config config_path s dh s1 cols train test s2 t1 e s3 t2 :
  DirectoryHelper K config_path (Typed config) s = (Ok dh, s1) →
  stage_dataset K config dh s1 = (Ok (cols, train, test), s2, t1) →
  stage_finetune K config dh train s2 = (Raise e, s3, t2) →
  run_one_experiment K config config_path s
  = (Raise e, s3, EvCall (CDirectoryHelper config_path (Typed config)) :: t1 ++ t2)
  ∧ none_of is_inference_call (run_one_experiment K config config_path s).2 = true.
Proof.
  intros Hdh Hst Hft.
  rewrite (run_one_experiment_stages K _ _ _ _ _ _ _ _ _ _ Hdh Hst), Hft.
  split; [reflexivity|]. msimpl.
  unfold none_of. cbn [forallb is_inference_call negb andb].
  rewrite forallb_app.
  pose proof (stage_dataset_no_inference K config dh s1) as H1.
  pose proof (stage_finetune_no_inference K config dh train s2) as H2.
  rewrite Hst in H1. rewrite Hft in H2. unfold none_of in H1, H2.
  cbn [snd] in H1, H2. rewrite H1, H2. reflexivity.
Qed.

(** C9.  Both branches of Stage 1 end in the same display call, which
    indexes [train[0]] and [test[0]]: once the splits are in memory, in
    whichever way, an empty train or test split makes
    [run_one_experiment] raise [IndexError] before Stage 2.  Nothing is
    asked of the weights or of the results: having every artifact on disk
    does not help. *)
Theorem empty_split_raises_IndexError
    config config_path s dh s1 dg s2 train test :
  DirectoryHelper K config_path (Typed config) s = (Ok dh, s1) →
  DatasetGenerator K (data_model_dump K config) s1 = (Ok dg, s2) →
  train = [] ∨ test = [] →
  (∀ s3,
     Path_exists (fs s2) (dataset (save_paths K dh)) = true →
     load_dataset_from_pickle K dg (dataset (save_paths K dh)) s2
       = (Ok (train, test), s3) →
     run_one_experiment K config config_path s
     = (Raise IndexError, s3,
        [EvCall (CDirectoryHelper config_path (Typed config));
         EvUI before_dataset_creation;
         EvUI (during_dataset_creation "Injecting Values into Prompt" "monkey");
         EvCall (CDatasetGenerator (data_model_dump K config));
         EvUI (dataset_found (dataset (save_paths K dh)));
         EvCall (Cload_dataset_from_pickle (dataset (save_paths K dh)))]))
  ∧ (∀ s3 s4,
     Path_exists (fs s2) (dataset (save_paths K dh)) = false →
     get_dataset K dg s2 = (Ok (train, test), s3) →
     save_dataset K dg (dataset (save_paths K dh)) s3 = (Ok tt, s4) →
     run_one_experiment K config config_path s
     = (Raise IndexError, s4,
        [EvCall (CDirectoryHelper config_path (Typed config));
         EvUI before_dataset_creation;
         EvUI (during_dataset_creation "Injecting Values into Prompt" "monkey");
         EvCall (CDatasetGenerator (data_model_dump K config));
         EvCall Cget_dataset;
         EvCall (Csave_dataset (dataset (save_paths K dh)))])).
Proof.
  intros Hdh Hdg Hempty. split.
  - intros s3 Hex Hload.
    apply (run_one_experiment_dataset_raises K _ _ _ _ _ _ _ _ Hdh).
    eapply stage_dataset_hit_empty; eauto.
  - intros s3 s4 Hex Hget Hsave.
    apply (run_one_experiment_dataset_raises K _ _ _ _ _ _ _ _ Hdh).
    eapply stage_dataset_miss_empty; eauto.
Qed.
End PipelineTheorems.

(** Training on the rows of [Demo.oom] fails: the run stops there. *)
Lemma finetune_failure_stops_pipeline_witness :
  let out := run_one_experiment Demo.collab Demo.oom ["config.yml"]
               Demo.empty_world in
  out.1.1 = Raise (RuntimeError "out of memory")
  ∧ none_of is_inference_call out.2 = true.
Proof.
  intros out.
  pose (dh := Demo.paths_under ["experiments"; "a"]).
  pose (o1 := Demo.directory_helper ["config.yml"] (Typed Demo.oom)
                Demo.empty_world).
  pose (o2 := stage_dataset Demo.collab Demo.oom dh o1.2).
  pose (o3 := stage_finetune Demo.collab Demo.oom dh ["oom"; "ex2"] o2.1.2).
  destruct (finetune_failure_stops_pipeline Demo.collab Demo.oom ["config.yml"]
              Demo.empty_world dh o1.2 ["text"] ["oom"; "ex2"] ["ex3"]
              o2.1.2 o2.2 (RuntimeError "out of memory") o3.1.2 o3.2)
    as [Heq Hnone]; [by_run ..|].
  split; [subst out; rewrite Heq; reflexivity | exact Hnone].
Defined.

(** Every artifact of "a" is on disk, but the stored test split is empty. *)
Lemma empty_split_raises_IndexError_witness :
  (run_one_experiment Demo.collab Demo.good ["config.yml"]
     (Demo.world (Demo.all_artifacts "ex1,ex2|"))).1.1
  = Raise IndexError.
Proof.
  set (w := Demo.world (Demo.all_artifacts "ex1,ex2|")).
  pose (dh := Demo.paths_under ["experiments"; "a"]).
  pose (o1 := Demo.directory_helper ["config.yml"] (Typed Demo.good) w).
  pose (o2 := Demo.dataset_generator "ex1,ex2|ex3" o1.2).
  pose (o3 := Demo.load "ex1,ex2|ex3" (dataset dh) o2.2).
  rewrite (proj1 (empty_split_raises_IndexError Demo.collab Demo.good
                    ["config.yml"] w dh o1.2 "ex1,ex2|ex3" o2.2
                    ["ex1"; "ex2"] []
                    ltac:(by_run) ltac:(by_run) (or_intror eq_refl))
             o3.2 ltac:(by_run) ltac:(by_run)).
  reflexivity.
Defined.

Section RunProps.
Context {Config DataKwargs Example Columns ValidationFailure Heap : Type}.
Context {DirectoryHelperT DatasetGeneratorT LoRAFinetuneT LoRAInferenceT : Type}.
Variable K : @Collab Config DataKwargs Example Columns ValidationFailure Heap
    DirectoryHelperT DatasetGeneratorT LoRAFinetuneT LoRAInferenceT.

Implicit Types (config : PyVal) (config_path : Path) (s : @St Heap).

(** The guarded validation never raises [ValidationError], and never
    touches the world. *)
Lemma validate_first_run config s :
  validate_first K config s
  = match config with
    | PDict kwargs =>
        match Config_validate K kwargs with
        | inl c => (Ok (Typed c), s, [])
        | inr e => (Ok (Raw config), s, [EvPrint (json K e)])
        end
    | _ => (Raise TypeError, s, [])
    end.
Proof.
  munfold. destruct config; try reflexivity.
  destruct (Config_validate K kvs); reflexivity.
Qed.

Lemma validate_first_state config s r s' t :
  validate_first K config s = (r, s', t) → s' = s.
Proof.
  rewrite validate_first_run. destruct config; try congruence.
  destruct (Config_validate K kvs); congruence.
Qed.

Lemma run_config_resolved config_path config s obj s0 tv :
  validate_first K config s = (Ok obj, s0, tv) →
  run_config K config_path config s
  = match DirectoryHelper K config_path obj s0 with
    | (Raise e, s1) => (Raise e, s1, tv ++ [EvCall (CDirectoryHelper config_path obj)])
    | (Ok dh, s1) =>
        match fs s1 !! config_file (save_paths K dh) with
        | Some (File text) =>
            match yaml_safe_load K text with
            | Ok (PDict kwargs) =>
                match Config_validate K kwargs with
                | inl c =>
                    let '(r, s2, t2) := run_one_experiment K c config_path s1 in
                    (r, s2,
                     tv ++ [EvCall (CDirectoryHelper config_path obj);
                            EvCall (Crun_one_experiment c config_path)] ++ t2)
                | inr e =>
                    (Raise (ValidationError e), s1,
                     tv ++ [EvCall (CDirectoryHelper config_path obj)])
                end
            | Ok _ =>
                (Raise TypeError, s1,
                 tv ++ [EvCall (CDirectoryHelper config_path obj)])
            | Raise e =>
                (Raise e, s1, tv ++ [EvCall (CDirectoryHelper config_path obj)])
            end
        | Some Dir =>
            (Raise IsADirectoryError, s1,
             tv ++ [EvCall (CDirectoryHelper config_path obj)])
        | None =>
            (Raise FileNotFoundError, s1,
             tv ++ [EvCall (CDirectoryHelper config_path obj)])
        end
    end.
Proof.
  intros Hv. unfold run_config.
  unfold mbind at 1, M_bind at 1. rewrite Hv. msimpl.
  unfold mbind at 1, M_bind at 1, invoke at 1.
  destruct (DirectoryHelper K config_path obj s0) as [[dh|e] s1]; msimpl;
    [|reflexivity].
  unfold mbind at 1, M_bind at 1, open_r at 1.
  destruct (fs s1 !! config_file (save_paths K dh)) as [[text|]|]; msimpl;
    try reflexivity.
  unfold mbind at 1, M_bind at 1, lift at 1.
  destruct (yaml_safe_load K text) as [v|e]; msimpl; [|reflexivity].
  unfold mbind at 1, M_bind at 1, Config_new at 1.
  destruct v; try reflexivity.
  destruct (Config_validate K kvs) as [c|e]; [|reflexivity].
  unfold mret at 1, M_ret at 1. msimpl.
  unfold mbind at 1, M_bind at 1, log at 1. msimpl.
  destruct (run_one_experiment K c config_path s1) as [[r s2] t2].
  reflexivity.
Qed.

Lemma for_each_cons config rest (body : PyVal → M unit) s :
  for_each (Config:=Config) (DataKwargs:=DataKwargs) (Example:=Example) (Columns:=Columns)
    (ValidationFailure:=ValidationFailure) (DirectoryHelperT:=DirectoryHelperT)
    (config :: rest) body s
  = match body config s with
    | (Ok _, s1, t1) =>
        let '(r, s2, t2) := for_each rest body s1 in (r, s2, t1 ++ t2)
    | (Raise e, s1, t1) => (Raise e, s1, t1)
    end.
Proof. reflexivity. Qed.

(** An exception in the body ends the loop: what follows is not run. *)
Lemma for_each_raise done config rest (body : PyVal → M unit) s s0 t0 e s1 t1 :
  for_each (Config:=Config) (DataKwargs:=DataKwargs) (Example:=Example) (Columns:=Columns)
    (ValidationFailure:=ValidationFailure) (DirectoryHelperT:=DirectoryHelperT)
    done body s = (Ok tt, s0, t0) →
  body config s0 = (Raise e, s1, t1) →
  for_each (done ++ config :: rest) body s = (Raise e, s1, t0 ++ t1).
Proof.
  revert s t0. induction done as [|d done IH]; intros s t0 Hdone Hbody.
  - cbn in Hdone. injection Hdone as <- <-.
    cbn [app]. rewrite for_each_cons, Hbody. reflexivity.
  - rewrite for_each_cons in Hdone. cbn [app]. rewrite for_each_cons.
    destruct (body d s) as [[[[]|e'] sd] td]; [|discriminate].
    destruct (for_each done body sd) as [[r s'] t'] eqn:Hrest.
    injection Hdone as -> -> <-.
    rewrite (IH _ _ Hrest Hbody). msimpl. rewrite app_assoc. reflexivity.
Qed.

Lemma run_expanded config_path s text config0 configs s' te :
  fs s !! config_path = Some (File text) →
  yaml_safe_load K text = Ok config0 →
  expand_configs K config0 s = (Ok configs, s', te) →
  run K config_path s
  = let '(r, s'', t) := for_each configs (run_config K config_path) s' in
    (r, s'', te ++ t).
Proof.
  intros Hopen Hyaml Hexp. unfold run.
  unfold mbind at 1, M_bind at 1, open_r at 1. rewrite Hopen. msimpl.
  unfold mbind at 1, M_bind at 1, lift at 1. rewrite Hyaml. msimpl.
  unfold mbind at 1, M_bind at 1. rewrite Hexp. msimpl.
  destruct (for_each configs (run_config K config_path) s') as [[r s''] t].
  reflexivity.
Qed.

(** The reloaded configuration is rejected: the item, and the loop, end
    with the [ValidationError]. *)
Lemma run_config_reload_invalid config_path config s obj s0 tv dh s1 text kwargs e :
  validate_first K config s = (Ok obj, s0, tv) →
  DirectoryHelper K config_path obj s0 = (Ok dh, s1) →
  fs s1 !! config_file (save_paths K dh) = Some (File text) →
  yaml_safe_load K text = Ok (PDict kwargs) →
  Config_validate K kwargs = inr e →
  run_config K config_path config s
  = (Raise (ValidationError e), s1,
     tv ++ [EvCall (CDirectoryHelper config_path obj)]).
Proof.
  intros Hv Hdh Hfile Hyaml Hval.
  rewrite (run_config_resolved _ _ _ _ _ _ Hv), Hdh, Hfile, Hyaml, Hval.
  reflexivity.
Qed.

Lemma run_reload_invalid
    config_path text0 config0 done config rest s s' te s0 t0 obj s0' tv
    dh s1 text kwargs e :
  fs s !! config_path = Some (File text0) →
  yaml_safe_load K text0 = Ok config0 →
  expand_configs K config0 s = (Ok (done ++ config :: rest), s', te) →
  for_each done (run_config K config_path) s' = (Ok tt, s0, t0) →
  validate_first K config s0 = (Ok obj, s0', tv) →
  DirectoryHelper K config_path obj s0' = (Ok dh, s1) →
  fs s1 !! config_file (save_paths K dh) = Some (File text) →
  yaml_safe_load K text = Ok (PDict kwargs) →
  Config_validate K kwargs = inr e →
  run K config_path s
  = (Raise (ValidationError e), s1,
     te ++ t0 ++ tv ++ [EvCall (CDirectoryHelper config_path obj)]).
Proof.
  intros Hopen Hyaml Hexp Hdone Hv Hdh Hfile Hyaml' Hval.
  rewrite (run_expanded _ _ _ _ _ _ _ Hopen Hyaml Hexp).
  rewrite (for_each_raise _ _ _ _ _ _ _ _ _ _ Hdone
             (run_config_reload_invalid _ _ _ _ _ _ _ _ _ _ _
                Hv Hdh Hfile Hyaml' Hval)).
  reflexivity.
Qed.

(** The pipeline itself never re-enters [run_one_experiment]. *)
Lemma run_one_experiment_no_reentry (c : Config) config_path s c' p' :
  EvCall (Crun_one_experiment c' p') ∉ (run_one_experiment K c config_path s).2.
Proof.
  munfold. msimpl. mcases; cbn [snd];
    repeat (apply not_elem_of_cons; split; [discriminate|]);
    apply not_elem_of_nil.
Qed.
End RunProps.

Section DatasetStage.
Context {Config DataKwargs Example Columns ValidationFailure Heap : Type}.
Context {DirectoryHelperT DatasetGeneratorT LoRAFinetuneT LoRAInferenceT : Type}.
Variable K : @Collab Config DataKwargs Example Columns ValidationFailure Heap
    DirectoryHelperT DatasetGeneratorT LoRAFinetuneT LoRAInferenceT.

Implicit Types (config : Config) (dir_helper : DirectoryHelperT).
Implicit Types (s : @St Heap) (train test : list Example).

Lemma stage_finetune_no_generation config dir_helper train s :
  none_of is_generation (stage_finetune K config dir_helper train s).2 = true.
Proof.
  rewrite stage_finetune_run. unfold finetune_outcome. mcases; reflexivity.
Qed.

Lemma stage_inference_no_generation config dir_helper test cols s :
  none_of is_generation (stage_inference K config dir_helper test cols s).2 = true.
Proof.
  rewrite stage_inference_run. unfold inference_outcome. mcases; reflexivity.
Qed.

(** A class of events absent from every stage is absent from the run. *)
Lemma run_one_experiment_none_of
    (p : @Event Config DataKwargs Example Columns DirectoryHelperT → bool)
    config config_path s dh s1 :
  DirectoryHelper K config_path (Typed config) s = (Ok dh, s1) →
  p (EvCall (CDirectoryHelper config_path (Typed config))) = false →
  none_of p (stage_dataset K config dh s1).2 = true →
  (∀ train s', none_of p (stage_finetune K config dh train s').2 = true) →
  (∀ test cols s', none_of p (stage_inference K config dh test cols s').2 = true) →
  none_of p (run_one_experiment K config config_path s).2 = true.
Proof.
  intros Hdh Hp H1 H2 H3.
  destruct (stage_dataset K config dh s1) as [[[[[cols train] test]|e] s2] t1] eqn:Hst.
  - rewrite (run_one_experiment_stages K _ _ _ _ _ _ _ _ _ _ Hdh Hst).
    specialize (H2 train s2).
    destruct (stage_finetune K config dh train s2) as [[[[]|e] s3] t2].
    + specialize (H3 test cols s3).
      destruct (stage_inference K config dh test cols s3) as [[r s4] t3].
      unfold none_of in *. cbn [snd forallb] in *.
      rewrite Hp, !forallb_app, H1, H2, H3. reflexivity.
    + unfold none_of in *. cbn [snd forallb] in *.
      rewrite Hp, !forallb_app, H1, H2. reflexivity.
  - rewrite (run_one_experiment_dataset_raises K _ _ _ _ _ _ _ _ Hdh Hst).
    unfold none_of in *. cbn [snd forallb] in *. rewrite Hp, H1. reflexivity.
Qed.

(** C2.  Stage 1, once the paths are resolved and the dataset collaborator
    constructed.  If the dataset path exists, nothing is generated in the
    whole run, and the splits are those that [load_dataset_from_pickle]
    returns.  If it does not exist, the splits are those of [get_dataset],
    and [save_dataset] is called on the dataset path.  In both branches the
    stage hands both splits on and displays their first rows (which is
    where a run with an empty split stops).  In
    particular, with the dataset on disk, no weights when Stage 2 looks and
    no results file when Stage 3 looks, the run loads the dataset, then
    fine-tunes on the loaded train split and infers on the loaded test
    split. *)
Theorem dataset_stage_load_or_generate config config_path s dh s1 dg s2 :
  DirectoryHelper K config_path (Typed config) s = (Ok dh, s1) →
  DatasetGenerator K (data_model_dump K config) s1 = (Ok dg, s2) →
  let dataset_path := dataset (save_paths K dh) in
  let prologue :=
    [EvUI before_dataset_creation;
     EvUI (during_dataset_creation "Injecting Values into Prompt" "monkey");
     EvCall (CDatasetGenerator (data_model_dump K config))] in
  (Path_exists (fs s2) dataset_path = true →
     none_of is_generation (run_one_experiment K config config_path s).2 = true
     ∧ ∀ train test s3 x xs y ys,
         load_dataset_from_pickle K dg dataset_path s2 = (Ok (train, test), s3) →
         train = x :: xs → test = y :: ys →
         stage_dataset K config dh s1
         = (Ok (test_columns K dg, train, test), s3,
            prologue ++
            [EvUI (dataset_found dataset_path);
             EvCall (Cload_dataset_from_pickle dataset_path);
             EvUI (dataset_display_one_example x y);
             EvUI (after_dataset_creation dataset_path train test)]))
  ∧ (Path_exists (fs s2) dataset_path = false →
     ∀ train test s3 s4 x xs y ys,
       get_dataset K dg s2 = (Ok (train, test), s3) →
       save_dataset K dg dataset_path s3 = (Ok tt, s4) →
       train = x :: xs → test = y :: ys →
       stage_dataset K config dh s1
       = (Ok (test_columns K dg, train, test), s4,
          prologue ++
          [EvCall Cget_dataset;
           EvCall (Csave_dataset dataset_path);
           EvUI (dataset_display_one_example x y);
           EvUI (after_dataset_creation dataset_path train test)]))
  ∧ (Path_exists (fs s2) dataset_path = true →
     ∀ train test s3 x xs y ys finetuner s4 s5 s6 runner s7 s8,
       load_dataset_from_pickle K dg dataset_path s2 = (Ok (train, test), s3) →
       train = x :: xs → test = y :: ys →
       Path_exists (fs s3) (weights (save_paths K dh)) = false →
       LoRAFinetune K config dh s3 = (Ok finetuner, s4) →
       finetune K finetuner train s4 = (Ok tt, s5) →
       save_model K finetuner s5 = (Ok tt, s6) →
       Path_exists (fs s6) (results_file (save_paths K dh)) = false →
       LoRAInference K test (test_columns K dg) config dh s6 = (Ok runner, s7) →
       infer_all K runner s7 = (Ok tt, s8) →
       run_one_experiment K config config_path s
       = (Ok tt, s8,
          EvCall (CDirectoryHelper config_path (Typed config)) ::
          prologue ++
          [EvUI (dataset_found dataset_path);
           EvCall (Cload_dataset_from_pickle dataset_path);
           EvUI (dataset_display_one_example x y);
           EvUI (after_dataset_creation dataset_path train test);
           EvUI before_finetune;
           EvCall (CLoRAFinetune config dh);
           EvUI during_finetune;
           EvCall (Cfinetune train);
           EvCall Csave_model;
           EvUI after_finetune;
           EvUI before_inference;
           EvCall (CLoRAInference test (test_columns K dg) config dh);
           EvCall Cinfer_all;
           EvUI (after_inference (results (save_paths K dh)))])).
Proof.
  intros Hdh Hdg dataset_path prologue. subst prologue.
  split; [|split].
  - intros Hex. split.
    + apply (run_one_experiment_none_of _ _ _ _ _ _ Hdh); [reflexivity|..].
      * eapply stage_dataset_hit_no_generation; eauto.
      * intros. apply stage_finetune_no_generation.
      * intros. apply stage_inference_no_generation.
    + intros. eapply stage_dataset_hit; eauto.
  - intros Hex **. eapply stage_dataset_miss; eauto.
  - intros Hex train test s3 x xs y ys ft s4 s5 s6 runner s7 s8
      Hload Htrain Htest Hw Hft Hfit Hsave Hr Hinf Hrun.
    rewrite (run_one_experiment_stages K _ _ _ _ _ _ _ _ _ _ Hdh
               (stage_dataset_hit K _ _ _ _ _ _ _ _ _ _ _ _
                  Hdg Hex Hload Htrain Htest)).
    rewrite stage_finetune_run. rewrite Path_exists_lookup in Hw.
    destruct (fs s3 !! weights (save_paths K dh)); [discriminate|].
    unfold finetune_outcome. rewrite Hft, Hfit, Hsave.
    rewrite stage_inference_run, Hr.
    unfold inference_outcome. rewrite Hinf, Hrun. reflexivity.
Qed.
End DatasetStage.

(** Only the dataset of "a" is on disk: it is loaded, and the two other
    stages do their work. *)
Lemma dataset_stage_load_or_generate_witness :
  let out := run_one_experiment Demo.collab Demo.good ["config.yml"]
               (Demo.world Demo.dataset_only) in
  out.1.1 = Ok tt
  ∧ none_of is_generation out.2 = true
  ∧ EvCall (Cfinetune ["ex1"; "ex2"]) ∈ out.2
  ∧ EvCall Cinfer_all ∈ out.2.
Proof.
  intros out.
  set (w := Demo.world Demo.dataset_only) in *.
  pose (dh := Demo.paths_under ["experiments"; "a"]).
  pose (s1 := (Demo.directory_helper ["config.yml"] (Typed Demo.good) w).2).
  pose (s3 := (Demo.load "ex1,ex2|ex3" (dataset dh) s1).2).
  pose (s6 := (Demo.persist_weights (weights dh) s3).2).
  pose (s8 := (Demo.run_all (dh, ["ex3"]) s6).2).
  destruct (dataset_stage_load_or_generate Demo.collab Demo.good ["config.yml"]
              w dh s1 "ex1,ex2|ex3" s1 ltac:(by_run) ltac:(by_run))
    as (Hhit & _ & Hrun).
  assert (Hex : Path_exists (fs s1) (dataset (save_paths Demo.collab dh)) = true)
    by (vm_compute; reflexivity).
  specialize (Hrun Hex ["ex1"; "ex2"] ["ex3"] s3 "ex1" ["ex2"] "ex3" []
                (weights dh) s3 s3 s6 (dh, ["ex3"]) s6 s8
                ltac:(by_run) eq_refl eq_refl ltac:(by_run) ltac:(by_run)
                ltac:(by_run) ltac:(by_run) ltac:(by_run) ltac:(by_run)
                ltac:(by_run)).
  destruct (Hhit Hex) as [Hnone _].
  subst out. split; [rewrite Hrun; reflexivity|]. split; [exact Hnone|].
  rewrite Hrun. cbn [snd app]. split.
  - do 11 apply list_elem_of_further. apply list_elem_of_here.
  - do 16 apply list_elem_of_further. apply list_elem_of_here.
Defined.

Section SweepTheorems.
Context {Config DataKwargs Example Columns ValidationFailure Heap : Type}.
Context {DirectoryHelperT DatasetGeneratorT LoRAFinetuneT LoRAInferenceT : Type}.
Variable K : @Collab Config DataKwargs Example Columns ValidationFailure Heap
    DirectoryHelperT DatasetGeneratorT LoRAFinetuneT LoRAInferenceT.

Implicit Types (config : PyVal) (config_path : Path) (s : @St Heap).

(** C5.  When [Config] rejects a sweep item, the failure is printed and
    not raised, and [config] is still the raw mapping; the item goes on:
    [DirectoryHelper] is called with that raw mapping (path resolution,
    which persists it), and if the configuration file it points to reloads
    and validates, the pipeline runs on the reloaded configuration and the
    loop proceeds to the remaining items. *)
Theorem first_validation_failure_continues kwargs0 e0 s :
  Config_validate K kwargs0 = inr e0 →
  validate_first K (PDict kwargs0) s
  = (Ok (Raw (PDict kwargs0)), s, [EvPrint (json K e0)])
  ∧ (∀ config_path, ∃ t,
       (run_config K config_path (PDict kwargs0) s).2
       = EvPrint (json K e0)
           :: EvCall (CDirectoryHelper config_path (Raw (PDict kwargs0))) :: t)
  ∧ (∀ config_path rest dh s1 text kwargs c,
       DirectoryHelper K config_path (Raw (PDict kwargs0)) s = (Ok dh, s1) →
       fs s1 !! config_file (save_paths K dh) = Some (File text) →
       yaml_safe_load K text = Ok (PDict kwargs) →
       Config_validate K kwargs = inl c →
       for_each (PDict kwargs0 :: rest) (run_config K config_path) s
       = match run_one_experiment K c config_path s1 with
         | (Ok _, s2, t2) =>
             let '(r, s3, t3) := for_each rest (run_config K config_path) s2 in
             (r, s3,
              [EvPrint (json K e0);
               EvCall (CDirectoryHelper config_path (Raw (PDict kwargs0)));
               EvCall (Crun_one_experiment c config_path)] ++ t2 ++ t3)
         | (Raise e, s2, t2) =>
             (Raise e, s2,
              [EvPrint (json K e0);
               EvCall (CDirectoryHelper config_path (Raw (PDict kwargs0)));
               EvCall (Crun_one_experiment c config_path)] ++ t2)
         end).
Proof.
  intros Hval.
  assert (Hfirst : validate_first K (PDict kwargs0) s
                   = (Ok (Raw (PDict kwargs0)), s, [EvPrint (json K e0)])).
  { rewrite validate_first_run, Hval. reflexivity. }
  split; [exact Hfirst|]. split.
  - intros config_path. rewrite (run_config_resolved K _ _ _ _ _ _ Hfirst).
    destruct (DirectoryHelper K config_path (Raw (PDict kwargs0)) s)
      as [[dh|e] s1]; [|eexists; reflexivity].
    destruct (fs s1 !! config_file (save_paths K dh)) as [[text|]|];
      try (eexists; reflexivity).
    destruct (yaml_safe_load K text) as [[]|]; try (eexists; reflexivity).
    destruct (Config_validate K kvs) as [c|e]; [|eexists; reflexivity].
    destruct (run_one_experiment K c config_path s1) as [[r s2] t2].
    eexists; reflexivity.
  - intros config_path rest dh s1 text kwargs c Hdh Hfile Hyaml Hok.
    rewrite for_each_cons.
    rewrite (run_config_resolved K _ _ _ _ _ _ Hfirst), Hdh, Hfile, Hyaml, Hok.
    destruct (run_one_experiment K c config_path s1) as [[[[]|e] s2] t2].
    + destruct (for_each rest (run_config K config_path) s2) as [[r s3] t3].
      cbn [app]. reflexivity.
    + reflexivity.
Qed.

(** C6.  In the loop body the pipeline is entered only after the file
    [dir_helper.save_paths.config_file] has been read back from disk and
    its content validated, and it is entered with that configuration:
    whatever [config] was in memory when the paths were resolved, the
    argument of [run_one_experiment] is the one parsed from the file. *)
Theorem pipeline_runs_on_reloaded_config
    config_path config s obj s0 tv dh s1 text kwargs c :
  validate_first K config s = (Ok obj, s0, tv) →
  DirectoryHelper K config_path obj s0 = (Ok dh, s1) →
  fs s1 !! config_file (save_paths K dh) = Some (File text) →
  yaml_safe_load K text = Ok (PDict kwargs) →
  Config_validate K kwargs = inl c →
  run_config K config_path config s
  = (let '(r, s2, t2) := run_one_experiment K c config_path s1 in
     (r, s2,
      tv ++ [EvCall (CDirectoryHelper config_path obj);
             EvCall (Crun_one_experiment c config_path)] ++ t2))
  ∧ (∀ c' p',
       EvCall (Crun_one_experiment c' p') ∈ (run_config K config_path config s).2 →
       c' = c ∧ p' = config_path).
Proof.
  intros Hv Hdh Hfile Hyaml Hok.
  assert (Hrun : run_config K config_path config s
    = (let '(r, s2, t2) := run_one_experiment K c config_path s1 in
       (r, s2,
        tv ++ [EvCall (CDirectoryHelper config_path obj);
               EvCall (Crun_one_experiment c config_path)] ++ t2))).
  { rewrite (run_config_resolved K _ _ _ _ _ _ Hv), Hdh, Hfile, Hyaml, Hok.
    reflexivity. }
  split; [exact Hrun|].
  intros c' p'. rewrite Hrun.
  pose proof (run_one_experiment_no_reentry K c config_path s1 c' p') as Hno.
  destruct (run_one_experiment K c config_path s1) as [[r s2] t2].
  cbn [snd] in *. rewrite validate_first_run in Hv.
  rewrite elem_of_app. cbn [app]. rewrite !elem_of_cons.
  intros [Hin | [Heq | [Heq | Hin]]].
  - destruct config; try discriminate.
    destruct (Config_validate K kvs); injection Hv as <- <- <-.
    + inversion Hin.
    + apply list_elem_of_singleton in Hin. discriminate.
  - discriminate.
  - injection Heq as -> ->. split; reflexivity.
  - contradiction.
Qed.

(** C10.  The second validation, of the configuration read back from
    disk, has no handler: when it fails for an item, the [ValidationError]
    leaves the loop and the [run] command.  The trace stops at the path
    resolution of that item; the items after it are never looked at, and
    the process exits with status 1. *)
Theorem reload_validation_failure_aborts_sweep
    config_path text0 config0 done config rest s s' te s0 t0 obj s0' tv
    dh s1 text kwargs e :
  fs s !! config_path = Some (File text0) →
  yaml_safe_load K text0 = Ok config0 →
  expand_configs K config0 s = (Ok (done ++ config :: rest), s', te) →
  for_each done (run_config K config_path) s' = (Ok tt, s0, t0) →
  validate_first K config s0 = (Ok obj, s0', tv) →
  DirectoryHelper K config_path obj s0' = (Ok dh, s1) →
  fs s1 !! config_file (save_paths K dh) = Some (File text) →
  yaml_safe_load K text = Ok (PDict kwargs) →
  Config_validate K kwargs = inr e →
  run K config_path s
  = (Raise (ValidationError e), s1,
     te ++ t0 ++ tv ++ [EvCall (CDirectoryHelper config_path obj)])
  ∧ for_each (done ++ config :: rest) (run_config K config_path) s'
    = for_each (done ++ [config]) (run_config K config_path) s'
  ∧ cli_run K config_path s = 1%Z.
Proof.
  intros Hopen Hyaml Hexp Hdone Hv Hdh Hfile Hyaml' Hval.
  pose proof (run_reload_invalid K _ _ _ _ _ _ _ _ _ _ _ _ _ _ _ _ _ _ _
                Hopen Hyaml Hexp Hdone Hv Hdh Hfile Hyaml' Hval) as Hrun.
  pose proof (run_config_reload_invalid K _ _ _ _ _ _ _ _ _ _ _
                Hv Hdh Hfile Hyaml' Hval) as Hitem.
  split; [exact Hrun|]. split.
  - rewrite (for_each_raise _ _ rest _ _ _ _ _ _ _ Hdone Hitem).
    rewrite (for_each_raise _ _ [] _ _ _ _ _ _ _ Hdone Hitem).
    reflexivity.
  - unfold cli_run. rewrite Hrun. reflexivity.
Qed.

(** C8 (amended).  The exit status tells whether an exception left the
    [run] command: 0 when it returned, 1 when it raised.  The guarded
    first validation never raises [ValidationError], so a configuration
    that fails it does not by that alone change the status; the unguarded
    validation of the reloaded file does, and gives status 1. *)
Theorem exit_status_reflects_escaping_exception config_path s :
  (cli_run K config_path s = 0%Z ↔ (run K config_path s).1.1 = Ok tt)
  ∧ (cli_run K config_path s = 1%Z ↔ ∃ e, (run K config_path s).1.1 = Raise e)
  ∧ (∀ config s0 e, (validate_first K config s0).1.1 ≠ Raise (ValidationError e))
  ∧ (∀ text0 config0 done config rest s' te s0 t0 obj s0' tv dh s1 text kwargs e,
       fs s !! config_path = Some (File text0) →
       yaml_safe_load K text0 = Ok config0 →
       expand_configs K config0 s = (Ok (done ++ config :: rest), s', te) →
       for_each done (run_config K config_path) s' = (Ok tt, s0, t0) →
       validate_first K config s0 = (Ok obj, s0', tv) →
       DirectoryHelper K config_path obj s0' = (Ok dh, s1) →
       fs s1 !! config_file (save_paths K dh) = Some (File text) →
       yaml_safe_load K text = Ok (PDict kwargs) →
       Config_validate K kwargs = inr e →
       cli_run K config_path s = 1%Z).
Proof.
  unfold cli_run. repeat split.
  - destruct (run K config_path s) as [[[[]|e] s'] t]; [reflexivity|discriminate].
  - destruct (run K config_path s) as [[[[]|e] s'] t]; [reflexivity|discriminate].
  - destruct (run K config_path s) as [[[[]|e] s'] t]; [discriminate|eauto].
  - destruct (run K config_path s) as [[[[]|e] s'] t];
      [intros [? ?]; discriminate | reflexivity].
  - intros config s0 e. rewrite validate_first_run.
    destruct config; try discriminate.
    destruct (Config_validate K kvs); discriminate.
  - intros * Hopen Hyaml Hexp Hdone Hv Hdh Hfile Hyaml' Hval.
    rewrite (run_reload_invalid K _ _ _ _ _ _ _ _ _ _ _ _ _ _ _ _ _ _ _
               Hopen Hyaml Hexp Hdone Hv Hdh Hfile Hyaml' Hval).
    reflexivity.
Qed.
End SweepTheorems.

(** The first member of the sweep fails the guarded validation; its
    directory holds a valid copy, so the pipeline runs, and the loop goes on
    to the second member. *)
Lemma first_validation_failure_continues_witness :
  let out := for_each [Demo.sweep_item "p1"; Demo.sweep_item "p2"]
               (run_config Demo.collab ["config.yml"]) Demo.resumed_sweep in
  take 3 out.2
  = [EvPrint "data: Field required";
     EvCall (CDirectoryHelper ["config.yml"] (Raw (Demo.sweep_item "p1")));
     EvCall (Crun_one_experiment
               {| Demo.name := "p1"; Demo.data := "ex1,ex2|ex3" |}
               ["config.yml"])]
  ∧ last out.2
    = Some (EvCall (CDirectoryHelper ["config.yml"] (Raw (Demo.sweep_item "p2")))).
Proof.
  intros out. subst out.
  destruct (first_validation_failure_continues Demo.collab
              [("name", PStr "p1"); ("ablation", PDict [("use_ablate", PBool true)])]
              [("data", "Field required")] Demo.resumed_sweep eq_refl)
    as (_ & _ & Hloop).
  pose (dh := Demo.paths_under ["experiments"; "p1"]).
  pose (s1 := (Demo.directory_helper ["config.yml"] (Raw (Demo.sweep_item "p1"))
                 Demo.resumed_sweep).2).
  specialize (Hloop ["config.yml"] [Demo.sweep_item "p2"] dh s1
                ("name: p1" +:+ Demo.newline +:+ "data: ex1,ex2|ex3")
                [("name", PStr "p1"); ("data", PStr "ex1,ex2|ex3")]
                {| Demo.name := "p1"; Demo.data := "ex1,ex2|ex3" |}
                ltac:(by_run) ltac:(by_run) ltac:(by_run) ltac:(by_run)).
  unfold Demo.sweep_item in *. rewrite Hloop.
  split; vm_compute; reflexivity.
Defined.

(** [config.yml] says [new1|new2]; the copy persisted by the earlier run
    says [ex1,ex2|ex3]; the pipeline gets the latter. *)
Lemma pipeline_runs_on_reloaded_config_witness :
  let out := run_config Demo.collab ["config.yml"] Demo.edited
               Demo.edited_after_run in
  Demo.validate [("name", PStr "a"); ("data", PStr "new1|new2")]
  = inl {| Demo.name := "a"; Demo.data := "new1|new2" |}
  ∧ out.2 !! 1%nat = Some (EvCall (Crun_one_experiment Demo.good ["config.yml"]))
  ∧ ∀ c' p', EvCall (Crun_one_experiment c' p') ∈ out.2 → c' = Demo.good.
Proof.
  intros out. subst out.
  pose (in_memory := {| Demo.name := "a"; Demo.data := "new1|new2" |}).
  pose (o0 := validate_first Demo.collab Demo.edited Demo.edited_after_run).
  pose (dh := Demo.paths_under ["experiments"; "a"]).
  pose (s1 := (Demo.directory_helper ["config.yml"] (Typed in_memory) o0.1.2).2).
  destruct (pipeline_runs_on_reloaded_config Demo.collab ["config.yml"]
              Demo.edited Demo.edited_after_run (Typed in_memory) o0.1.2 o0.2
              dh s1 ("name: a" +:+ Demo.newline +:+ "data: ex1,ex2|ex3")
              [("name", PStr "a"); ("data", PStr "ex1,ex2|ex3")] Demo.good
              ltac:(by_run) ltac:(by_run) ltac:(by_run) ltac:(by_run)
              ltac:(by_run))
    as [Hrun Honly].
  split; [reflexivity|]. split.
  - rewrite Hrun. vm_compute. reflexivity.
  - intros c' p' Hin. exact (proj1 (Honly c' p' Hin)).
Defined.

(** A sweep of two members without [data]: the first is persisted as it
    is, fails when read back, and the second is never reached. *)
Lemma reload_validation_failure_aborts_sweep_witness :
  let out := run Demo.collab ["config.yml"] Demo.fresh_sweep in
  out.1.1 = Raise (ValidationError [("data", "Field required")])
  ∧ out.2
    = [EvCall (Cgenerate_permutations
                 (PDict [("ablation", PDict [("use_ablate", PBool true)])]));
       EvPrint "data: Field required";
       EvCall (CDirectoryHelper ["config.yml"] (Raw (Demo.sweep_item "p1")))]
  ∧ cli_run Demo.collab ["config.yml"] Demo.fresh_sweep = 1%Z.
Proof.
  intros out. subst out.
  pose (config0 := PDict [("ablation", PDict [("use_ablate", PBool true)])]).
  pose (o0 := expand_configs Demo.collab config0 Demo.fresh_sweep).
  pose (o1 := validate_first Demo.collab (Demo.sweep_item "p1") o0.1.2).
  pose (dh := Demo.paths_under ["experiments"; "p1"]).
  pose (s1 := (Demo.directory_helper ["config.yml"]
                 (Raw (Demo.sweep_item "p1")) o1.1.2).2).
  destruct (reload_validation_failure_aborts_sweep Demo.collab ["config.yml"]
              Demo.sweep_text config0 [] (Demo.sweep_item "p1")
              [Demo.sweep_item "p2"] Demo.fresh_sweep o0.1.2 o0.2 o0.1.2 []
              (Raw (Demo.sweep_item "p1")) o1.1.2 o1.2 dh s1
              ("name: p1" +:+ Demo.newline +:+ "ablation:")
              [("name", PStr "p1"); ("ablation", PNone)]
              [("data", "Field required")]
              ltac:(by_run) ltac:(by_run) ltac:(by_run) eq_refl
              ltac:(by_run) ltac:(by_run) ltac:(by_run) ltac:(by_run)
              ltac:(by_run))
    as (Hrun & _ & Hexit).
  split; [rewrite Hrun; reflexivity|]. split; [|exact Hexit].
  rewrite Hrun. vm_compute. reflexivity.
Defined.

(** C8, as stated, fails in both directions.  First: [config.yml] has no
    [data], so the validation of the configuration fails and is printed;
    the copy persisted by an earlier run is valid, the pipeline finds every
    artifact, and the exit status is 0.  Second: a configuration that
    validates, both times, but describes empty splits; the pipeline raises
    [IndexError] and the exit status is 1. *)
Lemma exit_status_ignores_first_validation :
  (Demo.safe_load "name: a" = Ok (PDict [("name", PStr "a")])
   ∧ Demo.validate [("name", PStr "a")] = inr [("data", "Field required")]
   ∧ head (run Demo.collab ["config.yml"] Demo.broken_after_run).2
     = Some (EvPrint "data: Field required")
   ∧ cli_run Demo.collab ["config.yml"] Demo.broken_after_run = 0%Z)
  ∧ (Demo.validate [("name", PStr "b"); ("data", PStr "|")]
     = inl {| Demo.name := "b"; Demo.data := "|" |}
     ∧ (run Demo.collab ["config.yml"] Demo.empty_splits).1.1 = Raise IndexError
     ∧ cli_run Demo.collab ["config.yml"] Demo.empty_splits = 1%Z).
Proof. repeat split; vm_compute; reflexivity. Qed.

Section Rerun.
Context {Config DataKwargs Example Columns ValidationFailure Heap : Type}.
Context {DirectoryHelperT DatasetGeneratorT LoRAFinetuneT LoRAInferenceT : Type}.
Variable K : @Collab Config DataKwargs Example Columns ValidationFailure Heap
    DirectoryHelperT DatasetGeneratorT LoRAFinetuneT LoRAInferenceT.

Implicit Types (config : Config) (dir_helper : DirectoryHelperT).
Implicit Types (s : @St Heap) (train test : list Example).
Implicit Types (fs : gmap (list string) Node) (p q : Path).

Lemma stage_dataset_run config dir_helper s :
  stage_dataset K config dir_helper s = dataset_outcome K config dir_helper s.
Proof.
  unfold dataset_outcome, display_outcome. munfold. msimpl.
  destruct (DatasetGenerator K _ s) as [[dg|e] s1]; msimpl; [|reflexivity].
  destruct (Path_exists (fs s1) _); msimpl.
  - destruct (load_dataset_from_pickle K dg _ s1) as [[[train test]|e] s2];
      msimpl; [|reflexivity].
    destruct train, test; reflexivity.
  - destruct (get_dataset K dg s1) as [[[train test]|e] s2];
      msimpl; [|reflexivity].
    destruct (save_dataset K dg _ s2) as [[[]|e] s3]; msimpl; [|reflexivity].
    destruct train, test; reflexivity.
Qed.

(** *** The file system only grows *)

Lemma Path_exists_weaken fs fs' p :
  fs ⊆ fs' → Path_exists fs p = true → Path_exists fs' p = true.
Proof.
  rewrite !Path_exists_lookup. intros Hsub.
  destruct (fs !! p) as [n|] eqn:E; [|discriminate].
  rewrite (lookup_weaken _ _ _ _ E Hsub). reflexivity.
Qed.

Lemma elem_of_children fs p q :
  q ∈ children fs p ↔ parent q = Some p ∧ is_Some (fs !! q).
Proof.
  unfold children. rewrite list_elem_of_filter, list_elem_of_fmap.
  split.
  - intros [Hp [[q' n] [-> Hin]]]. split; [exact Hp|].
    apply elem_of_map_to_list in Hin. eauto.
  - intros [Hp [n Hn]]. split; [exact Hp|].
    exists (q, n). split; [reflexivity|]. apply elem_of_map_to_list, Hn.
Qed.

Lemma any_path_elem (l : list Path) : any_path l = true ↔ ∃ q, q ∈ l.
Proof.
  destruct l as [|q l]; cbn.
  - split; [discriminate | intros [q Hq]; inversion Hq].
  - split; [intros _; exists q; apply list_elem_of_here | reflexivity].
Qed.

Lemma weights_in_place_weaken fs fs' p :
  fs ⊆ fs' → weights_in_place fs p = true → weights_in_place fs' p = true.
Proof.
  unfold weights_in_place. intros Hsub.
  destruct (fs !! p) as [[]|] eqn:E; try discriminate.
  rewrite (lookup_weaken _ _ _ _ E Hsub), !any_path_elem.
  intros [q Hq]. exists q. apply elem_of_children in Hq as [Hp [n Hn]].
  apply elem_of_children. split; [exact Hp|].
  exists n. apply (lookup_weaken _ _ _ _ Hn Hsub).
Qed.

Lemma complete_weaken fs fs' paths :
  fs ⊆ fs' → complete fs paths → complete fs' paths.
Proof.
  intros Hsub (H1 & H2 & H3 & H4).
  repeat split; eauto using Path_exists_weaken, weights_in_place_weaken.
Qed.

(** *** A stage that returns leaves its artifact behind *)

Variable paths_of : Path → Config → SavePaths.

Lemma stage_dataset_done (HC : Contracts K paths_of) config dir_helper s out s' t :
  stage_dataset K config dir_helper s = (Ok out, s', t) →
  fs s ⊆ fs s'
  ∧ Path_exists (fs s') (dataset (save_paths K dir_helper)) = true.
Proof.
  rewrite stage_dataset_run. unfold dataset_outcome, display_outcome.
  pose proof (generator_reads _ _ HC (data_model_dump K config) s) as Hg.
  destruct (DatasetGenerator K _ s) as [[dg|e] s1]; [|discriminate].
  cbn [snd] in Hg.
  destruct (Path_exists (fs s1) _) eqn:Hex.
  - pose proof (load_reads _ _ HC dg (dataset (save_paths K dir_helper)) s1) as Hl.
    destruct (load_dataset_from_pickle K dg _ s1) as [[[train test]|e] s2];
      [|discriminate].
    cbn [snd] in Hl. destruct train, test; try discriminate.
    intros [= <- <- <-]. rewrite Hl. split; [rewrite Hg; reflexivity | exact Hex].
  - pose proof (get_dataset_grows _ _ HC dg s1) as Hgd.
    destruct (get_dataset K dg s1) as [[[train test]|e] s2]; [|discriminate].
    pose proof (save_dataset_grows _ _ HC dg (dataset (save_paths K dir_helper)) s2)
      as Hsd.
    destruct (save_dataset K dg _ s2) as [[[]|e] s3] eqn:Hsave; [|discriminate].
    cbn [snd] in Hgd, Hsd. destruct train, test; try discriminate.
    intros [= <- <- <-]. split.
    + rewrite <- Hg. etrans; eassumption.
    + eapply save_dataset_creates; eassumption.
Qed.

Lemma stage_finetune_done (HC : Contracts K paths_of) config dir_helper train s s' t :
  stage_finetune K config dir_helper train s = (Ok tt, s', t) →
  fs s ⊆ fs s'
  ∧ weights_in_place (fs s') (weights (save_paths K dir_helper)) = true.
Proof.
  rewrite stage_finetune_run.
  assert (Hwork : finetune_outcome K config dir_helper train s = (Ok tt, s', t) →
                  fs s ⊆ fs s'
                  ∧ weights_in_place (fs s') (weights (save_paths K dir_helper)) = true).
  { unfold finetune_outcome.
    pose proof (LoRAFinetune_grows _ _ HC config dir_helper s) as H1.
    destruct (LoRAFinetune K config dir_helper s) as [[ft|e] s1] eqn:Hft;
      [|discriminate].
    pose proof (finetune_grows _ _ HC ft train s1) as H2.
    destruct (finetune K ft train s1) as [[[]|e] s2]; [|discriminate].
    pose proof (save_model_grows _ _ HC ft s2) as H3.
    destruct (save_model K ft s2) as [[[]|e] s3] eqn:Hsave; [|discriminate].
    cbn [snd] in H1, H2, H3. intros [= <- <-]. split.
    - etrans; [exact H1|]. etrans; eassumption.
    - eapply save_model_fills; eassumption. }
  destruct (fs s !! weights (save_paths K dir_helper)) as [[]|] eqn:E;
    [discriminate| |exact Hwork].
  destruct (any_path (children (fs s) _)) eqn:Hany; [|exact Hwork].
  intros [= <- <-]. split; [reflexivity|].
  unfold weights_in_place. rewrite E. exact Hany.
Qed.

Lemma stage_inference_done (HC : Contracts K paths_of) config dir_helper test cols s s' t :
  stage_inference K config dir_helper test cols s = (Ok tt, s', t) →
  fs s ⊆ fs s'
  ∧ Path_exists (fs s') (results_file (save_paths K dir_helper)) = true.
Proof.
  rewrite stage_inference_run.
  destruct (Path_exists (fs s) _) eqn:Hex.
  - intros [= <- <-]. split; [reflexivity | exact Hex].
  - unfold inference_outcome.
    pose proof (LoRAInference_grows _ _ HC test cols config dir_helper s) as H1.
    destruct (LoRAInference K test cols config dir_helper s) as [[runner|e] s1]
      eqn:Hinf; [|discriminate].
    pose proof (infer_all_grows _ _ HC runner s1) as H2.
    destruct (infer_all K runner s1) as [[[]|e] s2] eqn:Hrun; [|discriminate].
    cbn [snd] in H1, H2. intros [= <- <-]. split.
    + etrans; eassumption.
    + eapply infer_all_writes; eassumption.
Qed.

(** A run that returns leaves a complete artifact directory. *)
Lemma run_leaves_complete (HC : Contracts K paths_of) config config_path s s1 t1 :
  run_one_experiment K config config_path s = (Ok tt, s1, t1) →
  complete (fs s1) (paths_of config_path config).
Proof.
  destruct (DirectoryHelper K config_path (Typed config) s) as [[dh|e] sa] eqn:Hdh.
  2:{ rewrite (run_one_experiment_resolve_raises K _ _ _ _ _ Hdh). discriminate. }
  pose proof (resolve_paths _ _ HC _ _ _ _ _ Hdh) as Hpaths.
  pose proof (resolve_persists _ _ HC _ _ _ _ _ Hdh) as Hcfg.
  destruct (stage_dataset K config dh sa) as [[[[[cols train] test]|e] sb] ta] eqn:Hst.
  2:{ rewrite (run_one_experiment_dataset_raises K _ _ _ _ _ _ _ _ Hdh Hst).
      discriminate. }
  rewrite (run_one_experiment_stages K _ _ _ _ _ _ _ _ _ _ Hdh Hst).
  destruct (stage_dataset_done HC _ _ _ _ _ _ Hst) as [Hab Hds].
  destruct (stage_finetune K config dh train sb) as [[[[]|e] sc] tb] eqn:Hft;
    [|discriminate].
  destruct (stage_finetune_done HC _ _ _ _ _ _ Hft) as [Hbc Hw].
  destruct (stage_inference K config dh test cols sc) as [[r sd] tc] eqn:Hinf.
  intros [= -> <- <-].
  destruct (stage_inference_done HC _ _ _ _ _ _ _ Hinf) as [Hcd Hr].
  rewrite Hpaths in *. repeat split.
  - eapply Path_exists_weaken; [|exact Hcfg].
    etrans; [exact Hab|]. etrans; eassumption.
  - eapply Path_exists_weaken; [|exact Hds]. etrans; eassumption.
  - eapply weights_in_place_weaken; eassumption.
  - exact Hr.
Qed.

(** *** A stage that finds its artifact writes nothing *)

Lemma stage_dataset_found (HC : Contracts K paths_of) config dir_helper s :
  Path_exists (fs s) (dataset (save_paths K dir_helper)) = true →
  let dataset_path := dataset (save_paths K dir_helper) in
  let out := stage_dataset K config dir_helper s in
  fs out.1.2 = fs s
  ∧ none_of is_work out.2 = true
  ∧ (∀ cols train test,
       out.1.1 = Ok (cols, train, test) →
       ∃ x y,
         out.2
         = [EvUI before_dataset_creation;
            EvUI (during_dataset_creation "Injecting Values into Prompt" "monkey");
            EvCall (CDatasetGenerator (data_model_dump K config));
            EvUI (dataset_found dataset_path);
            EvCall (Cload_dataset_from_pickle dataset_path);
            EvUI (dataset_display_one_example x y);
            EvUI (after_dataset_creation dataset_path train test)]).
Proof.
  intros Hex dataset_path out. subst out dataset_path.
  rewrite stage_dataset_run. unfold dataset_outcome, display_outcome.
  pose proof (generator_reads _ _ HC (data_model_dump K config) s) as Hg.
  destruct (DatasetGenerator K _ s) as [[dg|e] s1]; cbn [fst snd] in *.
  2:{ repeat split; [exact Hg | discriminate]. }
  rewrite Hg, Hex.
  pose proof (load_reads _ _ HC dg (dataset (save_paths K dir_helper)) s1) as Hl.
  destruct (load_dataset_from_pickle K dg _ s1) as [[[train test]|e] s2];
    cbn [fst snd] in *.
  2:{ repeat split; [congruence | discriminate]. }
  destruct train as [|x train], test as [|y test]; cbn [fst snd app];
    (repeat split; [congruence | try discriminate]).
  intros cols train' test' [= <- <- <-]. eauto.
Qed.

Lemma stage_finetune_found config dir_helper train s :
  weights_in_place (fs s) (weights (save_paths K dir_helper)) = true →
  stage_finetune K config dir_helper train s
  = (Ok tt, s, [EvUI before_finetune;
                EvUI (finetune_found (weights (save_paths K dir_helper)))]).
Proof.
  unfold weights_in_place. rewrite stage_finetune_run.
  destruct (fs s !! weights (save_paths K dir_helper)) as [[]|];
    try discriminate.
  intros ->. reflexivity.
Qed.

Lemma stage_inference_found config dir_helper test cols s :
  Path_exists (fs s) (results_file (save_paths K dir_helper)) = true →
  stage_inference K config dir_helper test cols s
  = (Ok tt, s, [EvUI before_inference;
                EvUI (results_found (results (save_paths K dir_helper)))]).
Proof. rewrite stage_inference_run. intros ->. reflexivity. Qed.

(** On a complete artifact directory the pipeline does no work and
    writes nothing; if it returns, each stage has reported its artifact. *)
Lemma run_on_complete (HC : Contracts K paths_of) config config_path s :
  complete (fs s) (paths_of config_path config) →
  let paths := paths_of config_path config in
  let out := run_one_experiment K config config_path s in
  none_of is_work out.2 = true
  ∧ fs out.1.2 = fs s
  ∧ (out.1.1 = Ok tt →
     ∃ train test x y,
       out.2
       = [EvCall (CDirectoryHelper config_path (Typed config));
          EvUI before_dataset_creation;
          EvUI (during_dataset_creation "Injecting Values into Prompt" "monkey");
          EvCall (CDatasetGenerator (data_model_dump K config));
          EvUI (dataset_found (dataset paths));
          EvCall (Cload_dataset_from_pickle (dataset paths));
          EvUI (dataset_display_one_example x y);
          EvUI (after_dataset_creation (dataset paths) train test);
          EvUI before_finetune;
          EvUI (finetune_found (weights paths));
          EvUI before_inference;
          EvUI (results_found (results paths))]).
Proof.
  intros (Hcfg & Hds & Hw & Hr) paths out. subst out paths.
  pose proof (resolve_again _ _ HC config_path config s Hcfg) as Hfs.
  destruct (DirectoryHelper K config_path (Typed config) s) as [[dh|e] sa] eqn:Hdh.
  2:{ rewrite (run_one_experiment_resolve_raises K _ _ _ _ _ Hdh).
      cbn [fst snd] in *. repeat split; [exact Hfs | discriminate]. }
  cbn [snd] in Hfs.
  pose proof (resolve_paths _ _ HC _ _ _ _ _ Hdh) as Hpaths.
  rewrite <- Hpaths in *. rewrite <- Hfs in Hds, Hw, Hr.
  destruct (stage_dataset_found HC config dh sa Hds) as (Hfs' & Hnone & Htrace).
  destruct (stage_dataset K config dh sa) as [[[[[cols train] test]|e] sb] ta] eqn:Hst;
    cbn [fst snd] in *.
  2:{ rewrite (run_one_experiment_dataset_raises K _ _ _ _ _ _ _ _ Hdh Hst).
      cbn [fst snd]. repeat split; [exact Hnone | congruence | discriminate]. }
  rewrite (run_one_experiment_stages K _ _ _ _ _ _ _ _ _ _ Hdh Hst).
  rewrite <- Hfs' in Hw, Hr.
  rewrite (stage_finetune_found _ _ _ _ Hw), (stage_inference_found _ _ _ _ _ Hr).
  cbn [fst snd]. destruct (Htrace cols train test eq_refl) as (x & y & ->).
  repeat split; [congruence|]. intros _. exists train, test, x, y. reflexivity.
Qed.

(** C1.  Under the contracts of the collaborators: after a run of the
    pipeline that returned, a second run on the same configuration and
    the directory as the first run left it makes no call that does work
    (no [get_dataset], [save_dataset], no call to the fine-tuning or to the
    inference collaborator), leaves the files exactly as they were, and,
    returning, has gone through the cache-hit branch of each of the three
    stages: dataset found and loaded, weights found, results found. *)
Theorem second_run_recomputes_nothing
    (HC : Contracts K paths_of) config config_path s s1 t1 :
  run_one_experiment K config config_path s = (Ok tt, s1, t1) →
  let paths := paths_of config_path config in
  let again := run_one_experiment K config config_path s1 in
  none_of is_work again.2 = true
  ∧ fs again.1.2 = fs s1
  ∧ (again.1.1 = Ok tt →
     ∃ train test x y,
       again.2
       = [EvCall (CDirectoryHelper config_path (Typed config));
          EvUI before_dataset_creation;
          EvUI (during_dataset_creation "Injecting Values into Prompt" "monkey");
          EvCall (CDatasetGenerator (data_model_dump K config));
          EvUI (dataset_found (dataset paths));
          EvCall (Cload_dataset_from_pickle (dataset paths));
          EvUI (dataset_display_one_example x y);
          EvUI (after_dataset_creation (dataset paths) train test);
          EvUI before_finetune;
          EvUI (finetune_found (weights paths));
          EvUI before_inference;
          EvUI (results_found (results paths))]).
Proof.
  intros Hfirst. apply (run_on_complete HC).
  eapply run_leaves_complete; eassumption.
Qed.
End Rerun.

(** ** The small collaborators honour the contracts *)

Lemma write_new_grows (p : Path) (n : Node) (fs : gmap (list string) Node) :
  fs ⊆ Demo.write_new p n fs.
Proof.
  unfold Demo.write_new. destruct (fs !! p) eqn:E; [reflexivity|].
  apply insert_subseteq, E.
Qed.

Lemma write_new_exists (p : Path) (n : Node) (fs : gmap (list string) Node) :
  Path_exists (Demo.write_new p n fs) p = true.
Proof.
  rewrite Path_exists_lookup. unfold Demo.write_new.
  destruct (fs !! p) eqn:E; [rewrite E | rewrite lookup_insert_eq]; reflexivity.
Qed.

Lemma parent_child (p : Path) (x : string) : parent (p ++ [x]) = Some p.
Proof.
  unfold parent. destruct (p ++ [x]) eqn:E.
  - destruct p; discriminate.
  - rewrite <- E, removelast_last. reflexivity.
Qed.

Lemma write_child_in_place (p : Path) (x : string) (n : Node)
    (fs : gmap (list string) Node) :
  fs !! p = None ∨ fs !! p = Some Dir →
  weights_in_place
    (Demo.write_new (p ++ [x]) n (Demo.write_new p Dir fs)) p = true.
Proof.
  intros Hp. unfold weights_in_place.
  assert (Hdir : Demo.write_new p Dir fs !! p = Some Dir).
  { unfold Demo.write_new. destruct Hp as [E|E]; rewrite E;
      [apply lookup_insert_eq | exact E]. }
  rewrite (lookup_weaken _ _ _ _ Hdir (write_new_grows _ _ _)).
  apply any_path_elem. exists (p ++ [x]). apply elem_of_children.
  split; [apply parent_child|].
  pose proof (write_new_exists (p ++ [x]) n (Demo.write_new p Dir fs)) as H.
  unfold Path_exists in H. apply bool_decide_eq_true in H. exact H.
Qed.

Lemma Demo_contracts : Contracts Demo.collab Demo.paths_for.
Proof.
  split; cbn [DirectoryHelper save_paths DatasetGenerator get_dataset
                save_dataset load_dataset_from_pickle LoRAFinetune finetune
                save_model LoRAInference infer_all Demo.collab id].
  - intros p c s dh s'. unfold Demo.directory_helper, Demo.paths_for.
    destruct (Path_exists _ _); intros [= <- <-]; reflexivity.
  - intros p c s dh s'. unfold Demo.directory_helper, Demo.paths_for.
    destruct (Path_exists _ _) eqn:E; intros [= <- <-]; [exact E|].
    apply write_new_exists.
  - intros p c s H. unfold Demo.directory_helper, Demo.paths_for in *.
    rewrite H. reflexivity.
  - intros p c s. unfold Demo.directory_helper.
    destruct (Path_exists _ _); cbn; [reflexivity|].
    repeat (etrans; [|apply write_new_grows]). reflexivity.
  - intros kwargs s. reflexivity.
  - intros dg s. reflexivity.
  - intros dg p s. unfold Demo.persist.
    destruct (heap s) as [[train test]|]; cbn; [|reflexivity].
    repeat (etrans; [|apply write_new_grows]). reflexivity.
  - intros dg p s s'. unfold Demo.persist.
    destruct (heap s) as [[train test]|]; [|discriminate].
    intros [= <-]. cbn.
    eapply Path_exists_weaken; [apply write_new_grows | apply write_new_exists].
  - intros dg p s. unfold Demo.load.
    destruct (fs s !! _) as [[]|]; reflexivity.
  - intros c dh s. reflexivity.
  - intros ft train s. unfold Demo.fit.
    destruct (bool_decide _); reflexivity.
  - intros ft s. unfold Demo.persist_weights.
    destruct (fs s !! ft) as [[]|]; cbn; try reflexivity;
      repeat (etrans; [|apply write_new_grows]); reflexivity.
  - intros c dh s0 ft s0' s s'. unfold Demo.lora_finetune, Demo.persist_weights.
    intros [= <- _].
    destruct (fs s !! weights dh) as [[]|] eqn:E; [discriminate|..];
      intros [= <-]; cbn; apply write_child_in_place; eauto.
  - intros test cols c dh s. reflexivity.
  - intros runner s. unfold Demo.run_all. cbn.
    repeat (etrans; [|apply write_new_grows]). reflexivity.
  - intros test cols c dh s0 runner s0' s s'.
    unfold Demo.lora_inference, Demo.run_all.
    intros [= <- _] [= <-]. cbn. apply write_new_exists.
Qed.

(** A first run from an empty disk, then a second one on what it left. *)
Lemma second_run_recomputes_nothing_witness :
  let first := run_one_experiment Demo.collab Demo.good ["config.yml"]
                 Demo.empty_world in
  let again := run_one_experiment Demo.collab Demo.good ["config.yml"]
                 first.1.2 in
  first.1.1 = Ok tt
  ∧ again.1.1 = Ok tt
  ∧ none_of is_work again.2 = true
  ∧ fs again.1.2 = fs first.1.2.
Proof.
  intros first again.
  destruct (second_run_recomputes_nothing Demo.collab Demo.paths_for
              Demo_contracts Demo.good ["config.yml"] Demo.empty_world
              first.1.2 first.2 ltac:(by_run))
    as (Hnone & Hfs & _).
  split; [vm_compute; reflexivity|].
  split; [vm_compute; reflexivity|].
  split; [exact Hnone | exact Hfs].
Defined.

(** * Further properties of the pipeline and of the sweep *)

Section MorePipeline.
Context {Config DataKwargs Example Columns ValidationFailure Heap : Type}.
Context {DirectoryHelperT DatasetGeneratorT LoRAFinetuneT LoRAInferenceT : Type}.
Variable K : @Collab Config DataKwargs Example Columns ValidationFailure Heap
    DirectoryHelperT DatasetGeneratorT LoRAFinetuneT LoRAInferenceT.

Implicit Types (config : Config) (dir_helper : DirectoryHelperT).
Implicit Types (s : @St Heap) (train test : list Example).

Lemma inference_outcome_calls config dir_helper test cols s :
  EvCall (CLoRAInference test cols config dir_helper)
    ∈ (inference_outcome K config dir_helper test cols s).2
  ∧ none_of is_inference_call (inference_outcome K config dir_helper test cols s).2
    = false.
Proof.
  unfold inference_outcome. mcases; cbn [snd]; (split; [|reflexivity]);
    apply list_elem_of_further, list_elem_of_here.
Qed.

(** X1.  Stage 3 looks at the results file and at nothing else: it returns
    without a call to the inference collaborator exactly when
    [results_file] exists.  When the file is missing, [LoRAInference] is
    constructed on the test split, whatever else is on disk: an existing
    results directory does not count, and the weights are not asked for. *)
Theorem inference_skipped_iff_results_file config dir_helper test cols s :
  let paths := save_paths K dir_helper in
  let out := stage_inference K config dir_helper test cols s in
  (Path_exists (fs s) (results_file paths) = true
   ↔ out.1.1 = Ok tt ∧ none_of is_inference_call out.2 = true)
  ∧ (Path_exists (fs s) (results_file paths) = true →
     out = (Ok tt, s, [EvUI before_inference; EvUI (results_found (results paths))]))
  ∧ (Path_exists (fs s) (results_file paths) = false →
     out = inference_outcome K config dir_helper test cols s
     ∧ EvCall (CLoRAInference test cols config dir_helper) ∈ out.2).
Proof.
  intros paths out. subst out paths. rewrite stage_inference_run.
  destruct (inference_outcome_calls config dir_helper test cols s) as [Hin Hcalls].
  destruct (Path_exists (fs s) _).
  - repeat split; discriminate.
  - split; [split; [discriminate|] | split; [discriminate|]].
    + rewrite Hcalls. intros [_ ?]. discriminate.
    + intros _. split; [reflexivity | exact Hin].
Qed.

(** X2.  A regular file where the weights directory should be: the test of
    line 66 passes [exists()] and then iterates the path, which raises
    [NotADirectoryError].  The run stops there, after Stage 1, with no call
    to the fine-tuning or to the inference collaborator. *)
Theorem weights_file_raises_NotADirectoryError
    config config_path s dh s1 cols train test s2 t1 content :
  DirectoryHelper K config_path (Typed config) s = (Ok dh, s1) →
  stage_dataset K config dh s1 = (Ok (cols, train, test), s2, t1) →
  fs s2 !! weights (save_paths K dh) = Some (File content) →
  run_one_experiment K config config_path s
  = (Raise NotADirectoryError, s2,
     EvCall (CDirectoryHelper config_path (Typed config))
       :: t1 ++ [EvUI before_finetune])
  ∧ none_of is_finetune_call (run_one_experiment K config config_path s).2 = true
  ∧ none_of is_inference_call (run_one_experiment K config config_path s).2 = true.
Proof.
  intros Hdh Hst Hfile.
  assert (Hrun : run_one_experiment K config config_path s
                 = (Raise NotADirectoryError, s2,
                    EvCall (CDirectoryHelper config_path (Typed config))
                      :: t1 ++ [EvUI before_finetune])).
  { rewrite (run_one_experiment_stages K _ _ _ _ _ _ _ _ _ _ Hdh Hst).
    rewrite stage_finetune_run, Hfile. reflexivity. }
  split; [exact Hrun|]. rewrite Hrun. cbn [snd].
  pose proof (stage_dataset_no_inference K config dh s1) as Hinf.
  assert (Hft : none_of is_finetune_call (stage_dataset K config dh s1).2 = true).
  { rewrite stage_dataset_run. unfold dataset_outcome, display_outcome.
    mcases; reflexivity. }
  rewrite Hst in Hinf, Hft. cbn [snd] in Hinf, Hft.
  unfold none_of in *. cbn [forallb is_finetune_call is_inference_call negb andb].
  rewrite !forallb_app, Hinf, Hft. split; reflexivity.
Qed.

(** X3.  The dataset collaborator is constructed before the dataset path
    is looked at (line 44 comes before line 50): when its constructor
    raises, the run raises with it, whatever is on disk.  A directory that
    holds every artifact does not make a run independent of the raw data. *)
Theorem generator_failure_precedes_cache config config_path s dh s1 e s2 :
  DirectoryHelper K config_path (Typed config) s = (Ok dh, s1) →
  DatasetGenerator K (data_model_dump K config) s1 = (Raise e, s2) →
  run_one_experiment K config config_path s
  = (Raise e, s2,
     [EvCall (CDirectoryHelper config_path (Typed config));
      EvUI before_dataset_creation;
      EvUI (during_dataset_creation "Injecting Values into Prompt" "monkey");
      EvCall (CDatasetGenerator (data_model_dump K config))]).
Proof.
  intros Hdh Hdg.
  apply (run_one_experiment_dataset_raises K _ _ _ _ _ _ _ _ Hdh).
  rewrite stage_dataset_run. unfold dataset_outcome. rewrite Hdg. reflexivity.
Qed.
End MorePipeline.

(** Only a regular file at the weights path of "a". *)
Lemma weights_file_raises_NotADirectoryError_witness :
  (run_one_experiment Demo.collab Demo.good ["config.yml"]
     Cases.weights_as_file).1.1
  = Raise NotADirectoryError.
Proof.
  set (w := Cases.weights_as_file).
  pose (dh := Demo.paths_under ["experiments"; "a"]).
  pose (s1 := (Demo.directory_helper ["config.yml"] (Typed Demo.good) w).2).
  pose (o2 := stage_dataset Demo.collab Demo.good dh s1).
  rewrite (proj1 (weights_file_raises_NotADirectoryError Demo.collab Demo.good
                    ["config.yml"] w dh s1 ["text"] ["ex1"; "ex2"] ["ex3"]
                    o2.1.2 o2.2 "not a directory"
                    ltac:(by_run) ltac:(by_run) ltac:(by_run))).
  reflexivity.
Defined.

(** Every artifact of "a" is on disk, and the raw records are not. *)
Lemma generator_failure_precedes_cache_witness :
  (run_one_experiment Cases.offline Demo.good ["config.yml"]
     (Demo.world (Demo.all_artifacts "ex1,ex2|ex3"))).1.1
  = Raise (RuntimeError "dataset unavailable").
Proof.
  set (w := Demo.world (Demo.all_artifacts "ex1,ex2|ex3")).
  pose (dh := Demo.paths_under ["experiments"; "a"]).
  pose (s1 := (Demo.directory_helper ["config.yml"] (Typed Demo.good) w).2).
  rewrite (generator_failure_precedes_cache Cases.offline Demo.good
             ["config.yml"] w dh s1 (RuntimeError "dataset unavailable") s1
             ltac:(by_run) ltac:(by_run)).
  reflexivity.
Defined.

Section MoreSweep.
Context {Config DataKwargs Example Columns ValidationFailure Heap : Type}.
Context {DirectoryHelperT DatasetGeneratorT LoRAFinetuneT LoRAInferenceT : Type}.
Variable K : @Collab Config DataKwargs Example Columns ValidationFailure Heap
    DirectoryHelperT DatasetGeneratorT LoRAFinetuneT LoRAInferenceT.

Implicit Types (config : PyVal) (config_path : Path) (s : @St Heap).


(** X5.  A configuration file whose document is not a mapping (an empty
    file gives [None], a YAML list gives a list) stops the command at
    [config.get]: [AttributeError], before the sweep is expanded and before
    anything is validated; the world is untouched. *)
Theorem run_on_document_that_is_no_mapping config_path s text document :
  fs s !! config_path = Some (File text) →
  yaml_safe_load K text = Ok document →
  (∀ kvs, document ≠ PDict kvs) →
  run K config_path s = (Raise AttributeError, s, []).
Proof.
  intros Hopen Hyaml Hno. unfold run.
  unfold mbind at 1, M_bind at 1, open_r at 1. rewrite Hopen. msimpl.
  unfold mbind at 1, M_bind at 1, lift at 1. rewrite Hyaml. msimpl.
  unfold mbind at 1, M_bind at 1, expand_configs.
  unfold mbind at 1, M_bind at 1, py_get at 1.
  destruct document; try reflexivity. destruct (Hno kvs eq_refl).
Qed.

(** X6.  The flag is tested for truthiness, not for [True]: with the
    [ablation] section a mapping and [use_ablate] holding any truthy value
    (the string "false", a non-zero number, a non-empty list),
    [generate_permutations] is called on the configuration and the sweep
    is whatever it returns. *)
Theorem expand_enabled_by_truthy_flag kvs section flag s :
  dict_lookup "ablation" kvs = Some (PDict section) →
  dict_lookup "use_ablate" section = Some flag →
  truthy flag = true →
  expand_configs K (PDict kvs) s
  = ((generate_permutations K (PDict kvs) s).1,
     (generate_permutations K (PDict kvs) s).2,
     [EvCall (Cgenerate_permutations (PDict kvs))]).
Proof.
  intros Hsec Hflag Htrue. munfold. msimpl. rewrite Hsec. msimpl.
  rewrite Hflag. msimpl. rewrite Htrue.
  destruct (generate_permutations K (PDict kvs) s). reflexivity.
Qed.

(** X7.  A sweep with no member is not an error: when the expansion
    returns the empty list the command returns at once, having resolved no
    path and run no pipeline, and the exit status is 0. *)
Theorem run_on_empty_sweep config_path s text config0 s' te :
  fs s !! config_path = Some (File text) →
  yaml_safe_load K text = Ok config0 →
  expand_configs K config0 s = (Ok [], s', te) →
  run K config_path s = (Ok tt, s', te)
  ∧ cli_run K config_path s = 0%Z.
Proof.
  intros Hopen Hyaml Hexp.
  assert (Hrun : run K config_path s = (Ok tt, s', te)).
  { rewrite (run_expanded K _ _ _ _ _ _ _ Hopen Hyaml Hexp).
    cbn. rewrite app_nil_r. reflexivity. }
  split; [exact Hrun|]. unfold cli_run. rewrite Hrun. reflexivity.
Qed.

(** What the loop body does once the reloaded configuration validates. *)
Lemma run_config_enters config_path config s obj s0 tv dh s1 text kwargs c :
  validate_first K config s = (Ok obj, s0, tv) →
  DirectoryHelper K config_path obj s0 = (Ok dh, s1) →
  fs s1 !! config_file (save_paths K dh) = Some (File text) →
  yaml_safe_load K text = Ok (PDict kwargs) →
  Config_validate K kwargs = inl c →
  run_config K config_path config s
  = (let '(r, s2, t2) := run_one_experiment K c config_path s1 in
     (r, s2,
      tv ++ [EvCall (CDirectoryHelper config_path obj);
             EvCall (Crun_one_experiment c config_path)] ++ t2)).
Proof.
  intros Hv Hdh Hfile Hyaml Hok.
  rewrite (run_config_resolved K _ _ _ _ _ _ Hv), Hdh, Hfile, Hyaml, Hok.
  reflexivity.
Qed.

(** X8.  The loop has no handler around the pipeline: when
    [run_one_experiment] raises for a member of the sweep, the exception
    leaves the [run] command, the members after it are not started, and
    the exit status is 1. *)
Theorem pipeline_failure_aborts_sweep
    config_path text0 config0 done config rest s s' te s0 t0 obj s0' tv
    dh s1 text kwargs c e s2 t2 :
  fs s !! config_path = Some (File text0) →
  yaml_safe_load K text0 = Ok config0 →
  expand_configs K config0 s = (Ok (done ++ config :: rest), s', te) →
  for_each done (run_config K config_path) s' = (Ok tt, s0, t0) →
  validate_first K config s0 = (Ok obj, s0', tv) →
  DirectoryHelper K config_path obj s0' = (Ok dh, s1) →
  fs s1 !! config_file (save_paths K dh) = Some (File text) →
  yaml_safe_load K text = Ok (PDict kwargs) →
  Config_validate K kwargs = inl c →
  run_one_experiment K c config_path s1 = (Raise e, s2, t2) →
  run K config_path s
  = (Raise e, s2,
     te ++ t0 ++ tv ++ [EvCall (CDirectoryHelper config_path obj);
                        EvCall (Crun_one_experiment c config_path)] ++ t2)
  ∧ cli_run K config_path s = 1%Z.
Proof.
  intros Hopen Hyaml Hexp Hdone Hv Hdh Hfile Hyaml' Hok Hpipe.
  assert (Hitem : run_config K config_path config s0
                  = (Raise e, s2,
                     tv ++ [EvCall (CDirectoryHelper config_path obj);
                            EvCall (Crun_one_experiment c config_path)] ++ t2)).
  { rewrite (run_config_enters _ _ _ _ _ _ _ _ _ _ _ Hv Hdh Hfile Hyaml' Hok), Hpipe.
    reflexivity. }
  assert (Hrun : run K config_path s
                 = (Raise e, s2,
                    te ++ t0 ++ tv ++ [EvCall (CDirectoryHelper config_path obj);
                                       EvCall (Crun_one_experiment c config_path)]
                          ++ t2)).
  { rewrite (run_expanded K _ _ _ _ _ _ _ Hopen Hyaml Hexp).
    rewrite (for_each_raise _ _ _ _ _ _ _ _ _ _ Hdone Hitem). reflexivity. }
  split; [exact Hrun|]. unfold cli_run. rewrite Hrun. reflexivity.
Qed.
End MoreSweep.

(** An empty configuration file, read by a loader that gives [None]. *)
Lemma run_on_document_that_is_no_mapping_witness :
  (run Cases.strict ["config.yml"] (Demo.with_config "" [])).1.1
  = Raise AttributeError.
Proof.
  rewrite (run_on_document_that_is_no_mapping Cases.strict ["config.yml"]
             (Demo.with_config "" []) "" PNone
             ltac:(vm_compute; reflexivity) eq_refl ltac:(discriminate)).
  reflexivity.
Defined.

(** [use_ablate: "false"], quoted, is a non-empty string. *)
Lemma expand_enabled_by_truthy_flag_witness :
  let config := [("ablation", PDict [("use_ablate", PStr "false")]);
                 ("data", PStr "ex1|ex2")] in
  (expand_configs Demo.collab (PDict config) Demo.empty_world).1.1
  = Ok [PDict (("name", PStr "p1") :: config);
        PDict (("name", PStr "p2") :: config)].
Proof.
  intros config.
  rewrite (expand_enabled_by_truthy_flag Demo.collab config
             [("use_ablate", PStr "false")] (PStr "false") Demo.empty_world
             eq_refl eq_refl eq_refl).
  reflexivity.
Defined.

(** A sweep request, expanded by a collaborator that finds no member. *)
Lemma run_on_empty_sweep_witness :
  (run Cases.barren ["config.yml"] Demo.fresh_sweep).1.1 = Ok tt
  ∧ (run Cases.barren ["config.yml"] Demo.fresh_sweep).2
    = [EvCall (Cgenerate_permutations
                 (PDict [("ablation", PDict [("use_ablate", PBool true)])]))]
  ∧ cli_run Cases.barren ["config.yml"] Demo.fresh_sweep = 0%Z.
Proof.
  pose (config0 := PDict [("ablation", PDict [("use_ablate", PBool true)])]).
  pose (o := expand_configs Cases.barren config0 Demo.fresh_sweep).
  destruct (run_on_empty_sweep Cases.barren ["config.yml"] Demo.fresh_sweep
              Demo.sweep_text config0 o.1.2 o.2
              ltac:(by_run) ltac:(by_run) ltac:(by_run))
    as [Hrun Hexit].
  rewrite Hrun. split; [reflexivity|]. split; [|exact Hexit].
  vm_compute. reflexivity.
Defined.

(** Two members with empty splits: the first raises [IndexError] in its
    pipeline, the second is never started. *)
Lemma pipeline_failure_aborts_sweep_witness :
  let out := run Demo.collab ["config.yml"] Cases.doomed_sweep in
  out.1.1 = Raise IndexError
  ∧ pipeline_calls out.2
    = [({| Demo.name := "p1"; Demo.data := "|" |}, ["config.yml"])]
  ∧ cli_run Demo.collab ["config.yml"] Cases.doomed_sweep = 1%Z.
Proof.
  intros out. subst out.
  pose (config0 := PDict [("ablation", PDict [("use_ablate", PBool true)]);
                          ("data", PStr "|")]).
  pose (c := {| Demo.name := "p1"; Demo.data := "|" |}).
  pose (o0 := expand_configs Demo.collab config0 Cases.doomed_sweep).
  pose (o1 := validate_first Demo.collab (Cases.doomed_item "p1") o0.1.2).
  pose (dh := Demo.paths_under ["experiments"; "p1"]).
  pose (s1 := (Demo.directory_helper ["config.yml"] (Typed c) o1.1.2).2).
  pose (o2 := run_one_experiment Demo.collab c ["config.yml"] s1).
  destruct (pipeline_failure_aborts_sweep Demo.collab ["config.yml"]
              (Demo.sweep_text +:+ Demo.newline +:+ "data: |") config0 []
              (Cases.doomed_item "p1") [Cases.doomed_item "p2"]
              Cases.doomed_sweep o0.1.2 o0.2 o0.1.2 [] (Typed c) o1.1.2 o1.2
              dh s1 ("name: p1" +:+ Demo.newline +:+ "data: |")
              [("name", PStr "p1"); ("data", PStr "|")] c IndexError
              o2.1.2 o2.2
              ltac:(by_run) ltac:(by_run) ltac:(by_run) eq_refl
              ltac:(by_run) ltac:(by_run) ltac:(by_run) ltac:(by_run)
              ltac:(by_run) ltac:(by_run))
    as [Hrun Hexit].
  rewrite Hrun. split; [reflexivity|]. split; [|exact Hexit].
  vm_compute. reflexivity.
Defined.


Section PipelineEntries.
Context {Config DataKwargs Example Columns ValidationFailure Heap : Type}.
Context {DirectoryHelperT DatasetGeneratorT LoRAFinetuneT LoRAInferenceT : Type}.
Variable K : @Collab Config DataKwargs Example Columns ValidationFailure Heap
    DirectoryHelperT DatasetGeneratorT LoRAFinetuneT LoRAInferenceT.

Implicit Types (config : PyVal) (config_path : Path) (s : @St Heap).
Implicit Types (t : list (@Event Config DataKwargs Example Columns DirectoryHelperT)).

Lemma pipeline_calls_app t1 t2 :
  pipeline_calls (t1 ++ t2) = pipeline_calls t1 ++ pipeline_calls t2.
Proof. apply omap_app. Qed.

Lemma pipeline_calls_none t :
  (∀ c p, EvCall (Crun_one_experiment c p) ∉ t) → pipeline_calls t = [].
Proof.
  induction t as [|ev t IH]; intros Hno; [reflexivity|].
  assert (Hrest : pipeline_calls t = []).
  { apply IH. intros c p Hin. apply (Hno c p). right. exact Hin. }
  destruct ev as [u|[]|line]; try exact Hrest.
  destruct (Hno config config_path). left.
Qed.

Lemma validate_first_no_entry config s :
  pipeline_calls (validate_first K config s).2 = [].
Proof.
  rewrite validate_first_run. destruct config; try reflexivity.
  destruct (Config_validate K kvs); reflexivity.
Qed.

Lemma run_one_experiment_no_entry (c : Config) config_path s :
  pipeline_calls (run_one_experiment K c config_path s).2 = [].
Proof. apply pipeline_calls_none. intros. apply run_one_experiment_no_reentry. Qed.

Lemma expand_configs_no_entry config s :
  pipeline_calls (expand_configs K config s).2 = [].
Proof. munfold. msimpl. mcases; reflexivity. Qed.

(** The entries into the pipeline made by one turn of the loop: none,
    unless the persisted file is there, loads and validates. *)
Lemma run_config_calls config_path config s :
  pipeline_calls (run_config K config_path config s).2
  = match validate_first K config s with
    | (Ok obj, s0, _) =>
        match DirectoryHelper K config_path obj s0 with
        | (Ok dh, s1) =>
            match fs s1 !! config_file (save_paths K dh) with
            | Some (File text) =>
                match yaml_safe_load K text with
                | Ok (PDict kwargs) =>
                    match Config_validate K kwargs with
                    | inl c => [(c, config_path)]
                    | inr _ => []
                    end
                | _ => []
                end
            | _ => []
            end
        | _ => []
        end
    | _ => []
    end.
Proof.
  pose proof (validate_first_no_entry config s) as Htv.
  destruct (validate_first K config s) as [[[obj|e] s0] tv] eqn:Hv; cbn [snd] in Htv.
  2:{ unfold run_config. unfold mbind at 1, M_bind at 1. rewrite Hv. exact Htv. }
  rewrite (run_config_resolved K _ _ _ _ _ _ Hv).
  destruct (DirectoryHelper K config_path obj s0) as [[dh|e] s1]; cbn [snd];
    [|rewrite pipeline_calls_app, Htv; reflexivity].
  destruct (fs s1 !! config_file (save_paths K dh)) as [[text|]|]; cbn [snd];
    try (rewrite pipeline_calls_app, Htv; reflexivity).
  destruct (yaml_safe_load K text) as [[]|]; cbn [snd];
    try (rewrite pipeline_calls_app, Htv; reflexivity).
  destruct (Config_validate K kvs) as [c|e]; cbn [snd];
    [|rewrite pipeline_calls_app, Htv; reflexivity].
  pose proof (run_one_experiment_no_entry c config_path s1) as Hno.
  destruct (run_one_experiment K c config_path s1) as [[r s2] t2].
  cbn [snd] in *. rewrite pipeline_calls_app, Htv.
  cbn [app].
  change (pipeline_calls (EvCall (CDirectoryHelper config_path obj)
                            :: EvCall (Crun_one_experiment c config_path) :: t2))
    with ((c, config_path) :: pipeline_calls t2).
  rewrite Hno. reflexivity.
Qed.

Lemma run_config_returns_after_entry config_path config s s' t :
  run_config K config_path config s = (Ok tt, s', t) →
  ∃ c, pipeline_calls t = [(c, config_path)].
Proof.
  intros Hrun. pose proof (run_config_calls config_path config s) as Hcalls.
  rewrite Hrun in Hcalls. cbn [snd] in Hcalls. rewrite Hcalls. clear Hcalls.
  destruct (validate_first K config s) as [[[obj|e] s0] tv] eqn:Hv.
  2:{ unfold run_config in Hrun. unfold mbind at 1, M_bind at 1 in Hrun.
      rewrite Hv in Hrun. discriminate. }
  rewrite (run_config_resolved K _ _ _ _ _ _ Hv) in Hrun.
  destruct (DirectoryHelper K config_path obj s0) as [[dh|e] s1]; [|discriminate].
  destruct (fs s1 !! config_file (save_paths K dh)) as [[text|]|]; try discriminate.
  destruct (yaml_safe_load K text) as [[]|]; try discriminate.
  destruct (Config_validate K kvs) as [c|e]; [|discriminate].
  eauto.
Qed.

(** X9.  Whatever happens in a turn of the loop, the pipeline is entered
    at most once, and only on this path: the guarded validation returned,
    [DirectoryHelper] returned, the file [config_file] it points to is a
    regular file on disk, its text loads to a mapping, and that mapping
    validates.  The pipeline then gets the configuration validated from
    the file, and the [config_path] of the command. *)
Theorem pipeline_entered_only_after_reload config_path config s c p :
  EvCall (Crun_one_experiment c p) ∈ (run_config K config_path config s).2 →
  p = config_path
  ∧ pipeline_calls (run_config K config_path config s).2 = [(c, config_path)]
  ∧ ∃ obj s0 tv dh s1 text kwargs,
      validate_first K config s = (Ok obj, s0, tv)
      ∧ DirectoryHelper K config_path obj s0 = (Ok dh, s1)
      ∧ fs s1 !! config_file (save_paths K dh) = Some (File text)
      ∧ yaml_safe_load K text = Ok (PDict kwargs)
      ∧ Config_validate K kwargs = inl c.
Proof.
  intros Hin.
  assert (Hcall : (c, p) ∈ pipeline_calls (run_config K config_path config s).2).
  { unfold pipeline_calls. apply list_elem_of_omap.
    exists (EvCall (Crun_one_experiment c p)). split; [exact Hin | reflexivity]. }
  rewrite run_config_calls in *.
  destruct (validate_first K config s) as [[[obj|e] s0] tv] eqn:Hv;
    [|inversion Hcall].
  destruct (DirectoryHelper K config_path obj s0) as [[dh|e] s1] eqn:Hdh;
    [|inversion Hcall].
  destruct (fs s1 !! config_file (save_paths K dh)) as [[text|]|] eqn:Hfile;
    try (inversion Hcall; fail).
  destruct (yaml_safe_load K text) as [[]|] eqn:Hyaml;
    try (inversion Hcall; fail).
  destruct (Config_validate K kvs) as [c'|e] eqn:Hok; [|inversion Hcall].
  apply list_elem_of_singleton in Hcall. injection Hcall as -> ->.
  split; [reflexivity|]. split; [reflexivity|].
  exists obj, s0, tv, dh, s1, text, kvs. repeat split; assumption.
Qed.

Lemma for_each_calls configs config_path s s' t :
  for_each configs (run_config K config_path) s = (Ok tt, s', t) →
  length (pipeline_calls t) = length configs
  ∧ Forall (λ call, call.2 = config_path) (pipeline_calls t).
Proof.
  revert s t. induction configs as [|config rest IH]; intros s t.
  - intros [= <- <-]. split; [reflexivity | constructor].
  - rewrite for_each_cons.
    destruct (run_config K config_path config s) as [[[[]|e] s1] t1] eqn:Hitem;
      [|discriminate].
    destruct (for_each rest (run_config K config_path) s1) as [[r s2] t2] eqn:Hrest.
    intros [= -> <- <-].
    destruct (run_config_returns_after_entry _ _ _ _ _ Hitem) as [c Hc].
    destruct (IH _ _ Hrest) as [Hlen Hall].
    rewrite pipeline_calls_app, Hc. cbn [app length].
    split; [rewrite Hlen; reflexivity | constructor; [reflexivity | exact Hall]].
Qed.

(** X10.  A [run] command that returns has entered the pipeline exactly
    once for each member of the expanded sweep, each time with the
    [config_path] of the command. *)
Theorem completed_sweep_runs_each_member_once
    config_path s text config0 configs s0 te s' t :
  fs s !! config_path = Some (File text) →
  yaml_safe_load K text = Ok config0 →
  expand_configs K config0 s = (Ok configs, s0, te) →
  run K config_path s = (Ok tt, s', t) →
  length (pipeline_calls t) = length configs
  ∧ Forall (λ call, call.2 = config_path) (pipeline_calls t).
Proof.
  intros Hopen Hyaml Hexp.
  rewrite (run_expanded K _ _ _ _ _ _ _ Hopen Hyaml Hexp).
  pose proof (expand_configs_no_entry config0 s) as Hte.
  rewrite Hexp in Hte. cbn [snd] in Hte.
  destruct (for_each configs (run_config K config_path) s0) as [[r s1] t1] eqn:Hloop.
  intros [= -> <- <-]. rewrite pipeline_calls_app, Hte.
  exact (for_each_calls _ _ _ _ _ Hloop).
Qed.
End PipelineEntries.

(** The pipeline is entered with the persisted configuration of "a". *)
Lemma pipeline_entered_only_after_reload_witness :
  pipeline_calls
    (run_config Demo.collab ["config.yml"] Demo.edited Demo.edited_after_run).2
  = [(Demo.good, ["config.yml"])].
Proof.
  assert (Hin : EvCall (Crun_one_experiment Demo.good ["config.yml"])
                ∈ (run_config Demo.collab ["config.yml"] Demo.edited
                     Demo.edited_after_run).2).
  { apply (list_elem_of_lookup_2 _ 1%nat). vm_compute. reflexivity. }
  exact (proj1 (proj2 (pipeline_entered_only_after_reload Demo.collab
                         ["config.yml"] Demo.edited Demo.edited_after_run
                         Demo.good ["config.yml"] Hin))).
Defined.

(** A sweep of two members that both run to the end. *)
Lemma completed_sweep_runs_each_member_once_witness :
  let out := run Demo.collab ["config.yml"] Cases.sound_sweep in
  out.1.1 = Ok tt ∧ length (pipeline_calls out.2) = 2%nat.
Proof.
  intros out.
  pose (config0 := PDict [("ablation", PDict [("use_ablate", PBool true)]);
                          ("data", PStr "ex1,ex2|ex3")]).
  pose (o0 := expand_configs Demo.collab config0 Cases.sound_sweep).
  split; [vm_compute; reflexivity|].
  exact (proj1 (completed_sweep_runs_each_member_once Demo.collab ["config.yml"]
                  Cases.sound_sweep
                  (Demo.sweep_text +:+ Demo.newline +:+ "data: ex1,ex2|ex3")
                  config0
                  [PDict (("name", PStr "p1")
                          :: [("ablation", PDict [("use_ablate", PBool true)]);
                              ("data", PStr "ex1,ex2|ex3")]);
                   PDict (("name", PStr "p2")
                          :: [("ablation", PDict [("use_ablate", PBool true)]);
                              ("data", PStr "ex1,ex2|ex3")])]
                  o0.1.2 o0.2 out.1.2 out.2
                  ltac:(by_run) ltac:(by_run) ltac:(by_run) ltac:(by_run))).
Defined.

(** * Resuming after a failed run *)

Section Resume.
Context {Config DataKwargs Example Columns ValidationFailure Heap : Type}.
Context {DirectoryHelperT DatasetGeneratorT LoRAFinetuneT LoRAInferenceT : Type}.
Variable K : @Collab Config DataKwargs Example Columns ValidationFailure Heap
    DirectoryHelperT DatasetGeneratorT LoRAFinetuneT LoRAInferenceT.
Variable paths_of : Path → Config → SavePaths.

Implicit Types (config : Config) (dir_helper : DirectoryHelperT).
Implicit Types (s : @St Heap) (train test : list Example).

Lemma none_of_work_parts
    (t : list (@Event Config DataKwargs Example Columns DirectoryHelperT)) :
  none_of is_work t = true →
  none_of is_generation t = true ∧ none_of is_finetune_call t = true.
Proof.
  unfold none_of, is_work. induction t as [|ev t IH]; cbn [forallb];
    [split; reflexivity|].
  intros [Hev Ht]%andb_prop. destruct (IH Ht) as [-> ->].
  destruct (is_generation ev), (is_finetune_call ev); try discriminate.
  split; reflexivity.
Qed.

Lemma stage_inference_no_finetune config dir_helper test cols s :
  none_of is_finetune_call (stage_inference K config dir_helper test cols s).2 = true.
Proof.
  rewrite stage_inference_run. unfold inference_outcome. mcases; reflexivity.
Qed.

(** Whatever its outcome, a stage only adds to the disk. *)
Lemma stage_finetune_grows (HC : Contracts K paths_of) config dir_helper train s :
  fs s ⊆ fs (stage_finetune K config dir_helper train s).1.2.
Proof.
  rewrite stage_finetune_run.
  assert (Hwork : fs s ⊆ fs (finetune_outcome K config dir_helper train s).1.2).
  { unfold finetune_outcome.
    pose proof (LoRAFinetune_grows _ _ HC config dir_helper s) as H1.
    destruct (LoRAFinetune K config dir_helper s) as [[ft|e] s1]; [|exact H1].
    pose proof (finetune_grows _ _ HC ft train s1) as H2.
    destruct (finetune K ft train s1) as [[[]|e] s2];
      [|etrans; [exact H1 | exact H2]].
    pose proof (save_model_grows _ _ HC ft s2) as H3.
    destruct (save_model K ft s2) as [[[]|e] s3];
      (etrans; [exact H1|]; etrans; [exact H2 | exact H3]). }
  destruct (fs s !! weights (save_paths K dir_helper)) as [[]|];
    [reflexivity| |exact Hwork].
  destruct (any_path _); [reflexivity | exact Hwork].
Qed.

Lemma stage_inference_grows (HC : Contracts K paths_of) config dir_helper test cols s :
  fs s ⊆ fs (stage_inference K config dir_helper test cols s).1.2.
Proof.
  rewrite stage_inference_run. destruct (Path_exists _ _); [reflexivity|].
  unfold inference_outcome.
  pose proof (LoRAInference_grows _ _ HC test cols config dir_helper s) as H1.
  destruct (LoRAInference K test cols config dir_helper s) as [[runner|e] s1];
    [|exact H1].
  pose proof (infer_all_grows _ _ HC runner s1) as H2.
  destruct (infer_all K runner s1) as [[[]|e] s2]; (etrans; [exact H1 | exact H2]).
Qed.

(** What a run that got through Stage 1 leaves on disk. *)
Lemma dataset_kept (HC : Contracts K paths_of)
    config config_path s dh s1 out s2 t1 :
  DirectoryHelper K config_path (Typed config) s = (Ok dh, s1) →
  stage_dataset K config dh s1 = (Ok out, s2, t1) →
  fs s2 ⊆ fs (run_one_experiment K config config_path s).1.2
  ∧ Path_exists (fs s2) (dataset (paths_of config_path config)) = true.
Proof.
  intros Hdh Hst. destruct out as [[cols train] test].
  rewrite <- (resolve_paths _ _ HC _ _ _ _ _ Hdh).
  split; [|exact (proj2 (stage_dataset_done K paths_of HC _ _ _ _ _ _ Hst))].
  rewrite (run_one_experiment_stages K _ _ _ _ _ _ _ _ _ _ Hdh Hst).
  pose proof (stage_finetune_grows HC config dh train s2) as H2.
  destruct (stage_finetune K config dh train s2) as [[[[]|e] s3] t2];
    [|exact H2].
  pose proof (stage_inference_grows HC config dh test cols s3) as H3.
  destruct (stage_inference K config dh test cols s3) as [[r s4] t3].
  etrans; [exact H2 | exact H3].
Qed.

(** A later run that finds the dataset: no work and no write in Stage 1. *)
Lemma rerun_finds_dataset (HC : Contracts K paths_of) config config_path s' dh' sa :
  Path_exists (fs s') (dataset (paths_of config_path config)) = true →
  DirectoryHelper K config_path (Typed config) s' = (Ok dh', sa) →
  fs s' ⊆ fs sa
  ∧ fs (stage_dataset K config dh' sa).1.2 = fs sa
  ∧ none_of is_work (stage_dataset K config dh' sa).2 = true.
Proof.
  intros Hds Hdh.
  pose proof (resolve_grows _ _ HC config_path config s') as Hg.
  rewrite Hdh in Hg. cbn [snd] in Hg. split; [exact Hg|].
  assert (Hds' : Path_exists (fs sa) (dataset (save_paths K dh')) = true).
  { rewrite (resolve_paths _ _ HC _ _ _ _ _ Hdh).
    eapply Path_exists_weaken; eassumption. }
  destruct (stage_dataset_found K paths_of HC config dh' sa Hds') as (H1 & H2 & _).
  split; assumption.
Qed.

(** X11.  Resuming spares the dataset.  Under the contracts of the
    collaborators: once a run has got through Stage 1, however it ended
    afterwards, a later run on a disk that still holds what that run left
    never calls [get_dataset] or [save_dataset]. *)
Theorem rerun_skips_generation (HC : Contracts K paths_of)
    config config_path s dh s1 out s2 t1 s' :
  DirectoryHelper K config_path (Typed config) s = (Ok dh, s1) →
  stage_dataset K config dh s1 = (Ok out, s2, t1) →
  fs (run_one_experiment K config config_path s).1.2 ⊆ fs s' →
  none_of is_generation (run_one_experiment K config config_path s').2 = true.
Proof.
  intros Hdh Hst Hkept.
  destruct (dataset_kept HC _ _ _ _ _ _ _ _ Hdh Hst) as [Hsub Hds].
  assert (Hds' : Path_exists (fs s') (dataset (paths_of config_path config)) = true).
  { eapply Path_exists_weaken; [|exact Hds]. etrans; eassumption. }
  destruct (DirectoryHelper K config_path (Typed config) s') as [[dh'|e] sa] eqn:Hdh'.
  2:{ rewrite (run_one_experiment_resolve_raises K _ _ _ _ _ Hdh'). reflexivity. }
  destruct (rerun_finds_dataset HC _ _ _ _ _ Hds' Hdh') as (_ & _ & Hnone).
  apply (run_one_experiment_none_of K _ _ _ _ _ _ Hdh'); [reflexivity|..].
  - exact (proj1 (none_of_work_parts _ Hnone)).
  - intros. apply stage_finetune_no_generation.
  - intros. apply stage_inference_no_generation.
Qed.

(** X12.  Resuming spares the training.  Under the contracts of the
    collaborators: once a run has got through Stage 2, however Stage 3
    ended, a later run on a disk that still holds what that run left makes
    no call to the fine-tuning collaborator. *)
Theorem rerun_skips_finetune (HC : Contracts K paths_of)
    config config_path s dh s1 cols train test s2 t1 s3 t2 s' :
  DirectoryHelper K config_path (Typed config) s = (Ok dh, s1) →
  stage_dataset K config dh s1 = (Ok (cols, train, test), s2, t1) →
  stage_finetune K config dh train s2 = (Ok tt, s3, t2) →
  fs (run_one_experiment K config config_path s).1.2 ⊆ fs s' →
  none_of is_finetune_call (run_one_experiment K config config_path s').2 = true.
Proof.
  intros Hdh Hst Hft Hkept.
  destruct (dataset_kept HC _ _ _ _ _ _ _ _ Hdh Hst) as [Hsub Hds].
  destruct (stage_finetune_done K paths_of HC _ _ _ _ _ _ Hft) as [H23 Hw].
  rewrite (resolve_paths _ _ HC _ _ _ _ _ Hdh) in Hw.
  assert (H3 : fs s3 ⊆ fs (run_one_experiment K config config_path s).1.2).
  { rewrite (run_one_experiment_stages K _ _ _ _ _ _ _ _ _ _ Hdh Hst), Hft.
    pose proof (stage_inference_grows HC config dh test cols s3) as Hinf.
    destruct (stage_inference K config dh test cols s3) as [[r s4] t3].
    exact Hinf. }
  assert (Hds' : Path_exists (fs s') (dataset (paths_of config_path config)) = true).
  { eapply Path_exists_weaken; [|exact Hds]. etrans; [exact Hsub | exact Hkept]. }
  assert (Hw' : weights_in_place (fs s') (weights (paths_of config_path config)) = true).
  { eapply weights_in_place_weaken; [|exact Hw]. etrans; [exact H3 | exact Hkept]. }
  destruct (DirectoryHelper K config_path (Typed config) s') as [[dh'|e] sa] eqn:Hdh'.
  2:{ rewrite (run_one_experiment_resolve_raises K _ _ _ _ _ Hdh'). reflexivity. }
  destruct (rerun_finds_dataset HC _ _ _ _ _ Hds' Hdh') as (Hsa & Hfs & Hnone).
  apply none_of_work_parts in Hnone as [_ Hnone].
  destruct (stage_dataset K config dh' sa) as [[[[[cols' train'] test']|e] sb] ta]
    eqn:Hst'; cbn [fst snd] in *.
  2:{ rewrite (run_one_experiment_dataset_raises K _ _ _ _ _ _ _ _ Hdh' Hst').
      unfold none_of in *. cbn [snd forallb is_finetune_call negb andb].
      exact Hnone. }
  rewrite (run_one_experiment_stages K _ _ _ _ _ _ _ _ _ _ Hdh' Hst').
  assert (Hw'' : weights_in_place (fs sb) (weights (save_paths K dh')) = true).
  { rewrite (resolve_paths _ _ HC _ _ _ _ _ Hdh'), Hfs.
    eapply weights_in_place_weaken; eassumption. }
  rewrite (stage_finetune_found K _ _ _ _ Hw'').
  pose proof (stage_inference_no_finetune config dh' test' cols' sb) as Hinf.
  destruct (stage_inference K config dh' test' cols' sb) as [[r sc] tc].
  unfold none_of in *. cbn [snd forallb is_finetune_call negb andb] in *.
  rewrite !forallb_app, Hnone, Hinf. reflexivity.
Qed.
End Resume.

(** Training fails in the first run; the second one, on what the first
    left, loads the dataset it had generated. *)
Lemma rerun_skips_generation_witness :
  let first := run_one_experiment Demo.collab Demo.oom ["config.yml"]
                 Demo.empty_world in
  let again := run_one_experiment Demo.collab Demo.oom ["config.yml"]
                 first.1.2 in
  first.1.1 = Raise (RuntimeError "out of memory")
  ∧ none_of is_generation first.2 = false
  ∧ none_of is_generation again.2 = true.
Proof.
  intros first again.
  pose (dh := Demo.paths_under ["experiments"; "a"]).
  pose (s1 := (Demo.directory_helper ["config.yml"] (Typed Demo.oom)
                 Demo.empty_world).2).
  pose (o2 := stage_dataset Demo.collab Demo.oom dh s1).
  split; [vm_compute; reflexivity|]. split; [vm_compute; reflexivity|].
  exact (rerun_skips_generation Demo.collab Demo.paths_for Demo_contracts
           Demo.oom ["config.yml"] Demo.empty_world dh s1
           (["text"], ["oom"; "ex2"], ["ex3"]) o2.1.2 o2.2 first.1.2
           ltac:(by_run) ltac:(by_run) ltac:(reflexivity)).
Defined.

(** A first run from an empty disk trains; the second does not. *)
Lemma rerun_skips_finetune_witness :
  let first := run_one_experiment Demo.collab Demo.good ["config.yml"]
                 Demo.empty_world in
  let again := run_one_experiment Demo.collab Demo.good ["config.yml"]
                 first.1.2 in
  none_of is_finetune_call first.2 = false
  ∧ none_of is_finetune_call again.2 = true.
Proof.
  intros first again.
  pose (dh := Demo.paths_under ["experiments"; "a"]).
  pose (s1 := (Demo.directory_helper ["config.yml"] (Typed Demo.good)
                 Demo.empty_world).2).
  pose (o2 := stage_dataset Demo.collab Demo.good dh s1).
  pose (o3 := stage_finetune Demo.collab Demo.good dh ["ex1"; "ex2"] o2.1.2).
  split; [vm_compute; reflexivity|].
  exact (rerun_skips_finetune Demo.collab Demo.paths_for Demo_contracts
           Demo.good ["config.yml"] Demo.empty_world dh s1
           ["text"] ["ex1"; "ex2"] ["ex3"] o2.1.2 o2.2 o3.1.2 o3.2 first.1.2
           ltac:(by_run) ltac:(by_run) ltac:(by_run) ltac:(reflexivity)).
Defined.

(** * The [generate config] command *)

Section GenerateConfig.
Implicit Types (fs : gmap (list string) Node) (cwd llmtune_file : Path).
Implicit Types (fname text : string).

Lemma generate_config_success llmtune_file fname cwd fs text :
  fs !! (removelast llmtune_file ++ [fname]) = Some (File text) →
  fs !! cwd = Some Dir →
  removelast llmtune_file ≠ cwd →
  fs !! (cwd ++ [fname]) ≠ Some Dir →
  generate_config llmtune_file fname cwd fs
  = (None, <[cwd ++ [fname] := File text]> fs, [RichUI_generate_config fname]).
Proof.
  intros Hsrc Hcwd Hne Htarget.
  unfold generate_config, shutil.copy, shutil.write, shutil.basename, Path in *.
  rewrite Hcwd, last_snoc. cbn [default from_option id].
  rewrite bool_decide_eq_false_2.
  2:{ intros [Heq _]%app_inj_tail. exact (Hne Heq). }
  rewrite andb_false_l, Hsrc.
  rewrite removelast_last, Hcwd.
  destruct (fs !! (cwd ++ [fname])) as [[content|]|]; try reflexivity.
  destruct (Htarget eq_refl).
Qed.

(** X13.  [generate config], run from a working directory that is not the
    package directory: the bundled example is copied into the working
    directory under its own name, replacing without notice a file of that
    name that was there; nothing else on disk changes, the bundled file
    included, and the one status message is shown. *)
Theorem generate_config_copies_example llmtune_file fname cwd fs text :
  fs !! (removelast llmtune_file ++ [fname]) = Some (File text) →
  fs !! cwd = Some Dir →
  removelast llmtune_file ≠ cwd →
  fs !! (cwd ++ [fname]) ≠ Some Dir →
  let out := generate_config llmtune_file fname cwd fs in
  out.1.1 = None
  ∧ out.1.2 !! (cwd ++ [fname]) = Some (File text)
  ∧ (∀ q, q ≠ cwd ++ [fname] → out.1.2 !! q = fs !! q)
  ∧ out.2 = [RichUI_generate_config fname].
Proof.
  intros Hsrc Hcwd Hne Htarget out. subst out.
  rewrite (generate_config_success _ _ _ _ _ Hsrc Hcwd Hne Htarget).
  cbn [fst snd]. repeat split.
  - apply lookup_insert_eq.
  - intros q Hq. apply lookup_insert_ne. congruence.
Qed.

(** X14.  [generate config] run from the package directory itself, where
    the bundled example already is the file to write: the copy is refused
    with [SameFileError], the example is left as it was and no status
    message is shown. *)
Theorem generate_config_in_package_directory llmtune_file fname cwd fs :
  is_Some (fs !! (removelast llmtune_file ++ [fname])) →
  fs !! cwd = Some Dir →
  removelast llmtune_file = cwd →
  generate_config llmtune_file fname cwd fs
  = (Some shutil.SameFileError, fs, []).
Proof.
  intros [node Hsrc] Hcwd <-.
  unfold generate_config, shutil.copy, shutil.basename.
  rewrite Hcwd, last_snoc. cbn [default from_option id].
  rewrite bool_decide_eq_true_2 by reflexivity.
  rewrite Path_exists_lookup. unfold Path in *. rewrite !Hsrc. reflexivity.
Qed.

(** X15.  [generate config] with no bundled example next to the package's
    module file: [FileNotFoundError] is raised, whatever the working
    directory is; nothing is written and no status message is shown. *)
Theorem generate_config_without_example llmtune_file fname cwd fs :
  fs !! (removelast llmtune_file ++ [fname]) = None →
  generate_config llmtune_file fname cwd fs
  = (Some shutil.FileNotFoundError, fs, []).
Proof.
  intros Hsrc. unfold generate_config, shutil.copy.
  rewrite Path_exists_lookup. unfold Path in *. rewrite !Hsrc.
  destruct (bool_decide _); reflexivity.
Qed.

(** X16.  [generate config] can be repeated: after a run that succeeded, a
    second run succeeds too and leaves the disk as the first one left it. *)
Theorem generate_config_twice llmtune_file fname cwd fs text :
  fs !! (removelast llmtune_file ++ [fname]) = Some (File text) →
  fs !! cwd = Some Dir →
  removelast llmtune_file ≠ cwd →
  fs !! (cwd ++ [fname]) ≠ Some Dir →
  let first := generate_config llmtune_file fname cwd fs in
  generate_config llmtune_file fname cwd first.1.2 = first.
Proof.
  intros Hsrc Hcwd Hne Htarget first. subst first.
  rewrite (generate_config_success _ _ _ _ _ Hsrc Hcwd Hne Htarget).
  cbn [fst snd].
  assert (Hsrc_ne : cwd ++ [fname] ≠ removelast llmtune_file ++ [fname]).
  { intros [Heq _]%app_inj_tail. exact (Hne (eq_sym Heq)). }
  assert (Hcwd_ne : cwd ++ [fname] ≠ cwd).
  { intros Heq. apply (f_equal length) in Heq.
    rewrite length_app in Heq. cbn in Heq. lia. }
  rewrite (generate_config_success llmtune_file fname cwd _ text).
  - rewrite insert_insert_eq. reflexivity.
  - rewrite lookup_insert_ne by exact Hsrc_ne. exact Hsrc.
  - rewrite lookup_insert_ne by exact Hcwd_ne. exact Hcwd.
  - exact Hne.
  - rewrite lookup_insert_eq. discriminate.
Qed.
End GenerateConfig.

(** A working directory that already has a [config.yml] of its own. *)
Lemma generate_config_copies_example_witness :
  let fs := Cases.installed [(["work"; "config.yml"], File "name: mine")] in
  let out := generate_config ["site-packages"; "llmtune"; "__init__.py"]
               "config.yml" ["work"] fs in
  fs !! ["work"; "config.yml"] = Some (File "name: mine")
  ∧ out.1.1 = None
  ∧ out.1.2 !! ["work"; "config.yml"] = Some (File "name: example").
Proof.
  intros fs out.
  destruct (generate_config_copies_example
              ["site-packages"; "llmtune"; "__init__.py"] "config.yml" ["work"]
              fs "name: example"
              ltac:(vm_compute; reflexivity) ltac:(vm_compute; reflexivity)
              ltac:(discriminate) ltac:(vm_compute; discriminate))
    as (Hok & Hcopy & _).
  split; [vm_compute; reflexivity|]. split; [exact Hok | exact Hcopy].
Defined.

(** The same working directory, twice. *)
Lemma generate_config_twice_witness :
  let fs := Cases.installed [(["work"; "config.yml"], File "name: mine")] in
  let first := generate_config ["site-packages"; "llmtune"; "__init__.py"]
                 "config.yml" ["work"] fs in
  generate_config ["site-packages"; "llmtune"; "__init__.py"] "config.yml"
    ["work"] first.1.2
  = first.
Proof.
  intros fs.
  exact (generate_config_twice
           ["site-packages"; "llmtune"; "__init__.py"] "config.yml" ["work"]
           fs "name: example"
           ltac:(vm_compute; reflexivity) ltac:(vm_compute; reflexivity)
           ltac:(discriminate) ltac:(vm_compute; discriminate)).
Defined.

(** The command run inside the installed package. *)
Lemma generate_config_in_package_directory_witness :
  generate_config ["site-packages"; "llmtune"; "__init__.py"] "config.yml"
    ["site-packages"; "llmtune"] (Cases.installed [])
  = (Some shutil.SameFileError, Cases.installed [], []).
Proof.
  exact (generate_config_in_package_directory
           ["site-packages"; "llmtune"; "__init__.py"] "config.yml"
           ["site-packages"; "llmtune"] (Cases.installed [])
           ltac:(vm_compute; eauto) ltac:(vm_compute; reflexivity)
           ltac:(reflexivity)).
Defined.

(** A package installed without its example. *)
Lemma generate_config_without_example_witness :
  generate_config ["site-packages"; "llmtune"; "__init__.py"] "example.yml"
    ["work"] (Cases.installed [])
  = (Some shutil.FileNotFoundError, Cases.installed [], []).
Proof.
  exact (generate_config_without_example
           ["site-packages"; "llmtune"; "__init__.py"] "example.yml"
           ["work"] (Cases.installed []) ltac:(vm_compute; reflexivity)).
Defined.
